(** * AppView: the layout shell of the app frontend

    A shallow embedding of
    - [frontend/app/src/components/AppView/AppView.tsx] (the [AppView]
      function component: its render output, its hooks and its effects), and
    - [frontend/lib/src/components/StreamlitApp/stores/AppUrlContext.ts]
      (the [AppUrlContext] context and the [useStreamlitAppUrl] hook).

    The render output is a tree of React elements; the hooks of the component
    are the slots of a [Fiber] record; closures the component creates are
    data ([Closure]) with an allocation identity, so that React's dependency
    comparison and the DOM's listener matching can be modelled by identity.
    Effects act on a [World]: the window's listener list, the host's
    script-finished handler list, and the log of calls the component makes.

    React is modelled as far as AppView uses it: [useState], [useCallback]
    and [useEffect] with their dependency comparison by [Object.is]; a
    render is committed together with its effects (cleanups of the effects
    whose dependencies changed first, then their bodies, in hook order), and
    a state update made by an effect or a handler is followed by a re-render
    with the committed props, up to React's nested-update limit. The window
    follows the DOM for [addEventListener], [removeEventListener] and event
    dispatch. Listeners and handlers of other code are part of the world;
    what they do when called is outside this model. *)

From Stdlib Require Import String List Bool Arith Lia ZArith.
Import ListNotations.
Local Open Scope string_scope.
Local Open Scope bool_scope.

(* ================================================================== *)
(** ** Values supplied by collaborators                                *)
(* ================================================================== *)

(** Objects owned by other modules (endpoints, session info, widget
    manager, upload client, component registry, forms data) are passed
    through untouched; only their identity matters here. *)
Definition Handle := nat.

(** A function value owned by another module (a prop callback or a context
    function), known by its identity. *)
Definition FnId := nat.

Module Element.
(** Modelled from the spec: the pre-rendered UI nodes of the page tree are
    declared in @streamlit/lib. AppView reads only the [type] member of an
    element (AppView.tsx:133); [id] stands for the object's identity. *)
Record t := { type : string; id : nat }.
End Element.

Module BlockNode.
(** Modelled from the spec: a region of the page tree ("a page tree with
    named regions"), declared in @streamlit/lib. The members AppView reads
    are taken as they are observed: [isEmpty] (AppView.tsx:120-121),
    [scriptRunId] (AppView.tsx:243) and the elements that [getElements()]
    yields, in iteration order (AppView.tsx:132). *)
Record t := {
  isEmpty : bool;
  scriptRunId : string;
  getElements : list Element.t
}.
End BlockNode.

Module AppRoot.
(** Modelled from the spec: the page tree with its three named regions. *)
Record t := {
  main : BlockNode.t;
  sidebar : BlockNode.t;
  event : BlockNode.t
}.
End AppRoot.

Module IAppPage.
(** Modelled from the spec: an entry of the "page list", declared in
    @streamlit/lib. AppView passes the list on and reads its length only. *)
Record t := { pageName : string; pageScriptHash : string }.
End IAppPage.

(** [AppViewProps], AppView.tsx:48-80. *)
Record AppViewProps := {
  elements : AppRoot.t;
  endpoints : Handle;
  sessionInfo : Handle;
  sendMessageToHost : FnId;
  scriptRunId : string;
  scriptRunState : string;
  widgetMgr : Handle;
  uploadClient : Handle;
  widgetsDisabled : bool;
  componentRegistry : Handle;
  formsData : Handle;
  appPages : list IAppPage.t;
  onPageChange : FnId;
  currentPageScriptHash : string;
  hideSidebarNav : bool
}.

(** The members of [AppContext] that AppView destructures, AppView.tsx:86-96. *)
Record AppContextProps := {
  wideMode : bool;
  initialSidebarState : nat;
  embedded : bool;
  showPadding : bool;
  disableScrolling : bool;
  showFooter : bool;
  showToolbar : bool;
  showColoredLine : bool;
  toastAdjustment : bool
}.

(** The members of [LibContext] that AppView destructures, AppView.tsx:98-99. *)
Record LibContextProps := {
  addScriptFinishedHandler : FnId;
  removeScriptFinishedHandler : FnId
}.

(* ================================================================== *)
(** ** React elements                                                  *)
(* ================================================================== *)

Inductive ComponentType :=
| StyledAppViewContainer
| ThemedSidebar
| ScrollToBottomContainer
| StyledAppViewMain
| StyledIFrameResizerAnchor
| EventContainer
| StyledAppViewBlockContainer
| VerticalBlock.

Definition ComponentType_eqb (a b : ComponentType) : bool :=
  match a, b with
  | StyledAppViewContainer, StyledAppViewContainer
  | ThemedSidebar, ThemedSidebar
  | ScrollToBottomContainer, ScrollToBottomContainer
  | StyledAppViewMain, StyledAppViewMain
  | StyledIFrameResizerAnchor, StyledIFrameResizerAnchor
  | EventContainer, EventContainer
  | StyledAppViewBlockContainer, StyledAppViewBlockContainer
  | VerticalBlock, VerticalBlock => true
  | _, _ => false
  end.

Inductive PropValue :=
| VBool (b : bool)
| VString (s : string)
| VNumber (n : Z)
| VHandle (h : Handle)
| VFunction (f : FnId)
| VBlockNode (n : BlockNode.t)
| VAppPages (l : list IAppPage.t).

(** What a JSX expression evaluates to: an element, or the value [false]
    that [cond && <X/>] leaves behind and that React renders as nothing. *)
#[warnings="-register-all"] Inductive ReactNode :=
| RFalse
| RElement (c : ComponentType) (props : list (string * PropValue))
           (children : list ReactNode).

(** JSX [{cond && <X .../>}]. *)
Definition jsx_and (cond : bool) (n : ReactNode) : ReactNode :=
  if cond then n else RFalse.

Definition children_of (n : ReactNode) : list ReactNode :=
  match n with
  | RFalse => []
  | RElement _ _ ch => ch
  end.

Definition is_element (c : ComponentType) (n : ReactNode) : bool :=
  match n with
  | RFalse => false
  | RElement c' _ _ => ComponentType_eqb c c'
  end.

(** The value of prop [name] of an element. *)
Fixpoint assoc (name : string) (l : list (string * PropValue)) : option PropValue :=
  match l with
  | [] => None
  | (k, v) :: l' => if String.eqb k name then Some v else assoc name l'
  end.

Definition prop (name : string) (n : ReactNode) : option PropValue :=
  match n with
  | RFalse => None
  | RElement _ props _ => assoc name props
  end.

(** [renders c n]: an element of component [c] occurs in the tree [n]. *)
Fixpoint renders (c : ComponentType) (n : ReactNode) : bool :=
  match n with
  | RFalse => false
  | RElement c' _ ch => ComponentType_eqb c c' || existsb (renders c) ch
  end.

(** The elements of component [c] in the tree, outermost first. *)
Fixpoint occurrences (c : ComponentType) (n : ReactNode) : list ReactNode :=
  match n with
  | RFalse => []
  | RElement c' _ ch =>
      (if ComponentType_eqb c c' then [n] else [])
        ++ flat_map (occurrences c) ch
  end.

(* ================================================================== *)
(** ** The render function of AppView                                  *)
(* ================================================================== *)

Section Render.
Variable ctx : AppContextProps.
Variable props : AppViewProps.
(** The current value of the [useState(false)] cell, AppView.tsx:122. *)
Variable showSidebarOverride : bool.

(** AppView.tsx:119 *)
Definition layout : string := if wideMode ctx then "wide" else "narrow".

(** AppView.tsx:120 *)
Definition hasSidebarElements : bool :=
  negb (BlockNode.isEmpty (AppRoot.sidebar (elements props))).

(** AppView.tsx:121 *)
Definition hasEventElements : bool :=
  negb (BlockNode.isEmpty (AppRoot.event (elements props))).

(** AppView.tsx:124-127 *)
Definition showSidebar : bool :=
  hasSidebarElements
  || (negb (hideSidebarNav props) && (1 <? length (appPages props))%nat)
  || showSidebarOverride.

(** AppView.tsx:131-134: [Array.from(...).find(...) !== undefined]. *)
Definition containsChatInput : bool :=
  match
    find (fun element => String.eqb (Element.type element) "chatInput")
         (BlockNode.getElements (AppRoot.main (elements props)))
  with
  | Some _ => true
  | None => false
  end.

(** AppView.tsx:135-137 *)
Definition Component : ComponentType :=
  if containsChatInput then ScrollToBottomContainer else StyledAppViewMain.

(** AppView.tsx:175-200 *)
Definition renderBlock (node : BlockNode.t) (events : bool) : ReactNode :=
  RElement StyledAppViewBlockContainer
    [ ("className", VString "block-container");
      ("data-testid", VString "block-container");
      ("isWideMode", VBool (wideMode ctx));
      ("showPadding", VBool (showPadding ctx));
      ("addPaddingForHeader", VBool (showToolbar ctx || showColoredLine ctx));
      ("addPaddingForChatInput", VBool containsChatInput);
      ("events", VBool events);
      ("isEmbedded", VBool (embedded ctx));
      ("hasSidebar", VBool showSidebar) ]
    [ RElement VerticalBlock
        [ ("node", VBlockNode node);
          ("endpoints", VHandle (endpoints props));
          ("sessionInfo", VHandle (sessionInfo props));
          ("scriptRunId", VString (scriptRunId props));
          ("scriptRunState", VString (scriptRunState props));
          ("widgetMgr", VHandle (widgetMgr props));
          ("widgetsDisabled", VBool (widgetsDisabled props));
          ("uploadClient", VHandle (uploadClient props));
          ("componentRegistry", VHandle (componentRegistry props));
          ("formsData", VHandle (formsData props)) ]
        [] ].

(** AppView.tsx:203-249, the tree the component returns. *)
Definition AppView_render : ReactNode :=
  RElement StyledAppViewContainer
    [ ("className", VString "appview-container");
      ("data-testid", VString "stAppViewContainer");
      ("data-layout", VString layout) ]
    [ jsx_and showSidebar
        (RElement ThemedSidebar
           [ ("endpoints", VHandle (endpoints props));
             ("initialSidebarState", VNumber (Z.of_nat (initialSidebarState ctx)));
             ("appPages", VAppPages (appPages props));
             ("hasElements", VBool hasSidebarElements);
             ("onPageChange", VFunction (onPageChange props));
             ("currentPageScriptHash", VString (currentPageScriptHash props));
             ("hideSidebarNav", VBool (hideSidebarNav props)) ]
           [ renderBlock (AppRoot.sidebar (elements props)) false ]);
      RElement Component
        [ ("tabIndex", VNumber 0);
          ("isEmbedded", VBool (embedded ctx));
          ("disableScrolling", VBool (disableScrolling ctx));
          ("className", VString "main") ]
        [ renderBlock (AppRoot.main (elements props)) false;
          jsx_and (negb containsChatInput)
            (RElement StyledIFrameResizerAnchor
               [ ("data-testid", VString "IframeResizerAnchor");
                 ("data-iframe-height", VBool true) ]
               []) ];
      jsx_and hasEventElements
        (RElement EventContainer
           [ ("toastAdjustment", VBool (toastAdjustment ctx));
             ("scriptRunId",
               VString (BlockNode.scriptRunId (AppRoot.event (elements props)))) ]
           [ renderBlock (AppRoot.event (elements props)) true ]) ].
End Render.

(* ================================================================== *)
(** ** Closures, the window and the host                               *)
(* ================================================================== *)

(** A message for the host frame: a JS object literal, as the list of its
    fields. *)
Definition IGuestToHostMessage := list (string * string).

(** The bodies of the function values that can be registered as listeners
    or handlers, with what they capture. *)
Inductive Closure :=
| HashChangeListener (send : FnId)
    (* [listener], AppView.tsx:140-145; captures [sendMessageToHost] *)
| ScriptFinishedHandler (hasSidebar override : bool)
    (* AppView.tsx:157-162; captures [hasSidebarElements] and
       [showSidebarOverride] of the render that created it *)
| External
    (* code of another module *).

(** A function object: its allocation identity and its body. *)
Record Fn := { fn_id : nat; fn_code : Closure }.

(** [Object.is] on function objects. *)
Definition same_fn (a b : Fn) : bool := Nat.eqb (fn_id a) (fn_id b).

Record EventListener := {
  ev_type : string;
  ev_callback : Fn;
  ev_capture : bool
}.

(** The function an effect returns, AppView.tsx:147 and 166-168. *)
Inductive Cleanup :=
| RemoveEventListener (type : string) (listener : Fn) (capture : bool)
| RemoveScriptFinishedHandler (remove : FnId) (handler : Fn).

(** The calls AppView makes into its environment, in the order made. *)
Inductive Call :=
| CallAddEventListener (type : string) (listener : Fn) (capture : bool)
| CallRemoveEventListener (type : string) (listener : Fn) (capture : bool)
| CallAddScriptFinishedHandler (add : FnId) (handler : Fn)
| CallRemoveScriptFinishedHandler (remove : FnId) (handler : Fn)
| CallSendMessageToHost (send : FnId) (message : IGuestToHostMessage)
| CallSetShowSidebarOverride (value : bool).

(** The hook slots of a mounted AppView, in the order the hooks are called,
    with what the last render committed. An effect slot is [None] until the
    effect has run once. *)
Record Fiber := {
  memoizedProps : AppViewProps;
  memoizedAppContext : AppContextProps;
  memoizedLibContext : LibContextProps;
  (* React.useState(false), AppView.tsx:122 *)
  state_showSidebarOverride : bool;
  (* a state update has asked for another render *)
  pendingUpdate : bool;
  (* React.useEffect, AppView.tsx:139-148: dependencies and cleanup *)
  hashchangeEffect : option (FnId * Cleanup);
  (* React.useEffect, AppView.tsx:150-155: dependencies *)
  overrideEffect : option (bool * bool * bool);
  (* React.useCallback, AppView.tsx:157-162: function and dependencies *)
  scriptFinishedCallback : option (Fn * (bool * bool));
  (* React.useEffect, AppView.tsx:164-173: dependencies and cleanup *)
  scriptFinishedEffect : option ((Fn * FnId * FnId) * Cleanup);
  (* the tree returned by the last render *)
  rendered : ReactNode
}.

Record World := {
  (* the next unused function identity *)
  next_id : nat;
  (* window.location.hash *)
  location_hash : string;
  (* the listeners registered on [window], in registration order *)
  window_listeners : list EventListener;
  (* the handlers the host calls when a script run finishes *)
  scriptFinishedHandlers : list Fn;
  (* the calls made by AppView so far *)
  calls : list Call;
  (* the mounted AppView, if any *)
  instance : option Fiber
}.

Definition log (c : Call) (w : World) : World :=
  let (n, hash, listeners, handlers, cs, inst) := w in
  {| next_id := n;
     location_hash := hash;
     window_listeners := listeners;
     scriptFinishedHandlers := handlers;
     calls := cs ++ [c];
     instance := inst |}.

Definition set_window_listeners (l : list EventListener) (w : World) : World :=
  let (n, hash, _, handlers, cs, inst) := w in
  {| next_id := n;
     location_hash := hash;
     window_listeners := l;
     scriptFinishedHandlers := handlers;
     calls := cs;
     instance := inst |}.

Definition set_scriptFinishedHandlers (l : list Fn) (w : World) : World :=
  let (n, hash, listeners, _, cs, inst) := w in
  {| next_id := n;
     location_hash := hash;
     window_listeners := listeners;
     scriptFinishedHandlers := l;
     calls := cs;
     instance := inst |}.

Definition set_instance (i : option Fiber) (w : World) : World :=
  let (n, hash, listeners, handlers, cs, _) := w in
  {| next_id := n;
     location_hash := hash;
     window_listeners := listeners;
     scriptFinishedHandlers := handlers;
     calls := cs;
     instance := i |}.

Definition set_location_hash (h : string) (w : World) : World :=
  let (n, _, listeners, handlers, cs, inst) := w in
  {| next_id := n;
     location_hash := h;
     window_listeners := listeners;
     scriptFinishedHandlers := handlers;
     calls := cs;
     instance := inst |}.

(** Evaluating a function expression allocates a new function object. *)
Definition alloc (code : Closure) (w : World) : Fn * World :=
  let (n, hash, listeners, handlers, cs, inst) := w in
  ({| fn_id := n; fn_code := code |},
   {| next_id := S n;
      location_hash := hash;
      window_listeners := listeners;
      scriptFinishedHandlers := handlers;
      calls := cs;
      instance := inst |}).

(** The DOM identifies a registration by type, callback and capture flag. *)
Definition same_listener (type : string) (l : Fn) (capture : bool)
    (e : EventListener) : bool :=
  String.eqb (ev_type e) type
  && same_fn (ev_callback e) l
  && Bool.eqb (ev_capture e) capture.

(** [window.addEventListener]: appends, unless the same registration exists. *)
Definition window_addEventListener (type : string) (l : Fn) (capture : bool)
    (w : World) : World :=
  let w := log (CallAddEventListener type l capture) w in
  if existsb (same_listener type l capture) (window_listeners w) then w
  else set_window_listeners
         (window_listeners w
            ++ [{| ev_type := type; ev_callback := l; ev_capture := capture |}])
         w.

(** [window.removeEventListener]: drops the matching registration. *)
Definition window_removeEventListener (type : string) (l : Fn) (capture : bool)
    (w : World) : World :=
  let w := log (CallRemoveEventListener type l capture) w in
  set_window_listeners
    (filter (fun e => negb (same_listener type l capture e)) (window_listeners w))
    w.

(** Modelled from the spec: "a script-finished callback subscription
    (subscribed/unsubscribed symmetrically)". The two functions come from
    LibContext and are implemented by the host, outside AppView: subscribing
    appends the handler to the host's list, unsubscribing removes it from
    the list. *)
Definition host_addScriptFinishedHandler (add : FnId) (h : Fn) (w : World)
    : World :=
  let w := log (CallAddScriptFinishedHandler add h) w in
  set_scriptFinishedHandlers (scriptFinishedHandlers w ++ [h]) w.

Definition host_removeScriptFinishedHandler (remove : FnId) (h : Fn)
    (w : World) : World :=
  let w := log (CallRemoveScriptFinishedHandler remove h) w in
  set_scriptFinishedHandlers
    (filter (fun h' => negb (same_fn h' h)) (scriptFinishedHandlers w)) w.

(** Calling the [sendMessageToHost] prop. What the host does with the
    message is its own business; the call is recorded. *)
Definition host_sendMessageToHost (send : FnId) (m : IGuestToHostMessage)
    (w : World) : World :=
  log (CallSendMessageToHost send m) w.

(* ================================================================== *)
(** ** Hooks and effects of AppView                                    *)
(* ================================================================== *)

(** Writing the state cell: the value is stored and a re-render is
    requested. *)
Definition store_state (value : bool) (f : Fiber) : Fiber :=
  let (props, ctx, lctx, _, _, e1, e2, cb, e3, tree) := f in
  {| memoizedProps := props;
     memoizedAppContext := ctx;
     memoizedLibContext := lctx;
     state_showSidebarOverride := value;
     pendingUpdate := true;
     hashchangeEffect := e1;
     overrideEffect := e2;
     scriptFinishedCallback := cb;
     scriptFinishedEffect := e3;
     rendered := tree |}.

(** The setter returned by [React.useState]: a different value is stored and
    a re-render is requested; the same value, or an unmounted component,
    changes nothing. *)
Definition setShowSidebarOverride (value : bool) (w : World) : World :=
  let w := log (CallSetShowSidebarOverride value) w in
  match instance w with
  | None => w
  | Some f =>
      if Bool.eqb (state_showSidebarOverride f) value then w
      else set_instance (Some (store_state value f)) w
  end.

(** Calling a function object. *)
Definition invoke (fn : Fn) (w : World) : World :=
  match fn_code fn with
  | HashChangeListener send =>
      (* AppView.tsx:141-144 *)
      host_sendMessageToHost send
        [("type", "UPDATE_HASH"); ("hash", location_hash w)] w
  | ScriptFinishedHandler hasSidebar override =>
      (* AppView.tsx:159-161 *)
      if negb hasSidebar && override then setShowSidebarOverride false w
      else w
  | External => w
  end.

Definition run_cleanup (c : Cleanup) (w : World) : World :=
  match c with
  | RemoveEventListener type l capture =>
      window_removeEventListener type l capture w
  | RemoveScriptFinishedHandler remove h =>
      host_removeScriptFinishedHandler remove h w
  end.

(** The body of the first effect, AppView.tsx:140-147: the world after it,
    and the cleanup function it returns. *)
Definition hashchange_effect (props : AppViewProps) (w : World)
    : World * Cleanup :=
  let (listener, w) := alloc (HashChangeListener (sendMessageToHost props)) w in
  let w := window_addEventListener "hashchange" listener false w in
  (w, RemoveEventListener "hashchange" listener false).

(** The body of the second effect, AppView.tsx:151-154. *)
Definition override_effect (showSidebar hideSidebarNav showSidebarOverride : bool)
    (w : World) : World :=
  if showSidebar && hideSidebarNav && negb showSidebarOverride
  then setShowSidebarOverride true w
  else w.

(** The body of the third effect, AppView.tsx:165-168. *)
Definition scriptFinished_effect (lctx : LibContextProps) (handler : Fn)
    (w : World) : World * Cleanup :=
  let w := host_addScriptFinishedHandler (addScriptFinishedHandler lctx) handler w in
  (w, RemoveScriptFinishedHandler (removeScriptFinishedHandler lctx) handler).

(** The hook slots before the first render: the state cell holds the
    argument of [useState], no effect has run, nothing is memoized. *)
Definition initial_fiber (props : AppViewProps) (ctx : AppContextProps)
    (lctx : LibContextProps) : Fiber :=
  {| memoizedProps := props;
     memoizedAppContext := ctx;
     memoizedLibContext := lctx;
     state_showSidebarOverride := false;
     pendingUpdate := false;
     hashchangeEffect := None;
     overrideEffect := None;
     scriptFinishedCallback := None;
     scriptFinishedEffect := None;
     rendered := RFalse |}.

Definition update_fiber (g : Fiber -> Fiber) (w : World) : World :=
  match instance w with
  | Some f => set_instance (Some (g f)) w
  | None => w
  end.

Definition store_hashchangeEffect (slot : FnId * Cleanup) (f : Fiber) : Fiber :=
  let (props, ctx, lctx, st, pending, _, e2, cb, e3, tree) := f in
  {| memoizedProps := props;
     memoizedAppContext := ctx;
     memoizedLibContext := lctx;
     state_showSidebarOverride := st;
     pendingUpdate := pending;
     hashchangeEffect := Some slot;
     overrideEffect := e2;
     scriptFinishedCallback := cb;
     scriptFinishedEffect := e3;
     rendered := tree |}.

Definition store_overrideEffect (slot : bool * bool * bool) (f : Fiber) : Fiber :=
  let (props, ctx, lctx, st, pending, e1, _, cb, e3, tree) := f in
  {| memoizedProps := props;
     memoizedAppContext := ctx;
     memoizedLibContext := lctx;
     state_showSidebarOverride := st;
     pendingUpdate := pending;
     hashchangeEffect := e1;
     overrideEffect := Some slot;
     scriptFinishedCallback := cb;
     scriptFinishedEffect := e3;
     rendered := tree |}.

Definition store_scriptFinishedEffect (slot : (Fn * FnId * FnId) * Cleanup)
    (f : Fiber) : Fiber :=
  let (props, ctx, lctx, st, pending, e1, e2, cb, _, tree) := f in
  {| memoizedProps := props;
     memoizedAppContext := ctx;
     memoizedLibContext := lctx;
     state_showSidebarOverride := st;
     pendingUpdate := pending;
     hashchangeEffect := e1;
     overrideEffect := e2;
     scriptFinishedCallback := cb;
     scriptFinishedEffect := Some slot;
     rendered := tree |}.

(** [React.useCallback(fn, deps)]: the memoized function while the
    dependencies are unchanged, the new one otherwise. *)
Definition useCallback (slot : option (Fn * (bool * bool))) (fn : Fn)
    (deps : bool * bool) : Fn :=
  match slot with
  | Some (memo, (d1, d2)) =>
      if Bool.eqb d1 (fst deps) && Bool.eqb d2 (snd deps) then memo else fn
  | None => fn
  end.

(** Whether an effect runs after this render: always after the first one,
    afterwards when a dependency is not [Object.is]-equal to the last one. *)
Definition hashchange_deps_changed (slot : option (FnId * Cleanup))
    (send : FnId) : bool :=
  match slot with
  | Some (send', _) => negb (Nat.eqb send' send)
  | None => true
  end.

Definition override_deps_changed (slot : option (bool * bool * bool))
    (deps : bool * bool * bool) : bool :=
  match slot, deps with
  | Some (a', b', c'), (a, b, c) =>
      negb (Bool.eqb a' a && Bool.eqb b' b && Bool.eqb c' c)
  | None, _ => true
  end.

Definition scriptFinished_deps_changed
    (slot : option ((Fn * FnId * FnId) * Cleanup))
    (deps : Fn * FnId * FnId) : bool :=
  match slot, deps with
  | Some ((h', add', remove'), _), (h, add, remove) =>
      negb (same_fn h' h && Nat.eqb add' add && Nat.eqb remove' remove)
  | None, _ => true
  end.

(** Running the cleanup function an effect slot holds, if any. *)
Definition cleanup_slot {D : Type} (slot : option (D * Cleanup)) (w : World)
    : World :=
  match slot with
  | Some (_, c) => run_cleanup c w
  | None => w
  end.

(** The commit that follows a render. React has marked the effects whose
    dependencies changed ([run1], [run2], [run3], in hook order); the commit
    first runs the cleanup functions those effects returned last time
    ([slot1], [slot3]; the second effect returns none), then their bodies,
    in hook order, and stores the new dependencies and cleanups. *)
Definition commit_effects (run1 run2 run3 : bool)
    (props : AppViewProps) (lctx : LibContextProps)
    (show showSidebarOverride : bool) (scriptFinishedHandler : Fn)
    (slot1 : option (FnId * Cleanup))
    (slot3 : option ((Fn * FnId * FnId) * Cleanup))
    (w : World) : World :=
  let deps1 := sendMessageToHost props in
  let deps2 := (show, hideSidebarNav props, showSidebarOverride) in
  let deps3 := (scriptFinishedHandler, addScriptFinishedHandler lctx,
                removeScriptFinishedHandler lctx) in
  (* cleanup functions *)
  let w := if run1 then cleanup_slot slot1 w else w in
  let w := if run3 then cleanup_slot slot3 w else w in
  (* effect bodies *)
  let w :=
    if run1 then
      let (w, cleanup) := hashchange_effect props w in
      update_fiber (store_hashchangeEffect (deps1, cleanup)) w
    else w in
  let w :=
    if run2 then
      update_fiber (store_overrideEffect deps2)
        (override_effect show (hideSidebarNav props) showSidebarOverride w)
    else w in
  let w :=
    if run3 then
      let (w, cleanup) := scriptFinished_effect lctx scriptFinishedHandler w in
      update_fiber (store_scriptFinishedEffect (deps3, cleanup)) w
    else w in
  w.

(** One render of AppView followed by its commit: the function body is
    evaluated against the hook slots of the previous render (those of
    [initial_fiber] when mounting), the result is committed, and the
    effects whose dependencies changed run. *)
Definition render_pass (props : AppViewProps) (ctx : AppContextProps)
    (lctx : LibContextProps) (w : World) : World :=
  let f := match instance w with
           | Some f => f
           | None => initial_fiber props ctx lctx
           end in
  (* AppView.tsx:119-137 *)
  let showSidebarOverride := state_showSidebarOverride f in
  let hasSidebar := hasSidebarElements props in
  let show := showSidebar props showSidebarOverride in
  (* AppView.tsx:157-162 *)
  let (candidate, w) :=
    alloc (ScriptFinishedHandler hasSidebar showSidebarOverride) w in
  let scriptFinishedHandler :=
    useCallback (scriptFinishedCallback f) candidate
      (hasSidebar, showSidebarOverride) in
  (* which effects run: AppView.tsx:148, 155, 169-173 *)
  let run1 :=
    hashchange_deps_changed (hashchangeEffect f) (sendMessageToHost props) in
  let run2 :=
    override_deps_changed (overrideEffect f)
      (show, hideSidebarNav props, showSidebarOverride) in
  let run3 :=
    scriptFinished_deps_changed (scriptFinishedEffect f)
      (scriptFinishedHandler, addScriptFinishedHandler lctx,
       removeScriptFinishedHandler lctx) in
  (* the render is committed *)
  let w :=
    set_instance
      (Some {| memoizedProps := props;
               memoizedAppContext := ctx;
               memoizedLibContext := lctx;
               state_showSidebarOverride := showSidebarOverride;
               pendingUpdate := false;
               hashchangeEffect := hashchangeEffect f;
               overrideEffect := overrideEffect f;
               scriptFinishedCallback :=
                 Some (scriptFinishedHandler, (hasSidebar, showSidebarOverride));
               scriptFinishedEffect := scriptFinishedEffect f;
               rendered := AppView_render ctx props showSidebarOverride |})
      w in
  commit_effects run1 run2 run3 props lctx show showSidebarOverride
    scriptFinishedHandler (hashchangeEffect f) (scriptFinishedEffect f) w.

Inductive Error :=
| MaximumUpdateDepthExceeded.

(** React gives up on a component whose effects keep asking for another
    render: after this many nested updates it reports "Maximum update depth
    exceeded". *)
Definition NESTED_UPDATE_LIMIT : nat := 50.

Definition is_pending (w : World) : bool :=
  match instance w with
  | Some f => pendingUpdate f
  | None => false
  end.

(** Rendering until no effect has asked for another render. *)
Fixpoint render_loop (fuel : nat) (props : AppViewProps)
    (ctx : AppContextProps) (lctx : LibContextProps) (w : World)
    : Error + World :=
  match fuel with
  | O => inl MaximumUpdateDepthExceeded
  | S fuel' =>
      let w := render_pass props ctx lctx w in
      if is_pending w then render_loop fuel' props ctx lctx w else inr w
  end.

(** After a callback has run: re-render with the committed props when the
    callback updated the state. *)
Definition flush (w : World) : Error + World :=
  match instance w with
  | Some f =>
      if pendingUpdate f then
        render_loop NESTED_UPDATE_LIMIT (memoizedProps f)
          (memoizedAppContext f) (memoizedLibContext f) w
      else inr w
  | None => inr w
  end.

(** The window dispatching an event of type [type] to its listeners. *)
Definition dispatch (type : string) (w : World) : World :=
  fold_left
    (fun w e => if String.eqb (ev_type e) type then invoke (ev_callback e) w else w)
    (window_listeners w) w.

(** The host notifying its script-finished subscribers. *)
Definition notify_scriptFinished (w : World) : World :=
  fold_left (fun w h => invoke h w) (scriptFinishedHandlers w) w.

(** Unmounting runs the cleanup function of every effect. *)
Definition unmount (w : World) : World :=
  match instance w with
  | Some f =>
      let w := cleanup_slot (hashchangeEffect f) w in
      let w := cleanup_slot (scriptFinishedEffect f) w in
      set_instance None w
  | None => w
  end.

(** What can happen to an AppView. *)
Inductive Event :=
| Render (props : AppViewProps) (ctx : AppContextProps) (lctx : LibContextProps)
    (* the parent renders AppView: mount, or update with new props/context *)
| Navigate (hash : string)
    (* window.location.hash changes *)
| HashChange
    (* the browser fires the hashchange event *)
| ScriptFinished
    (* the host reports the end of a script run *)
| Unmount
    (* the parent removes AppView *).

Definition step (e : Event) (w : World) : Error + World :=
  match e with
  | Render props ctx lctx => render_loop NESTED_UPDATE_LIMIT props ctx lctx w
  | Navigate hash => inr (set_location_hash hash w)
  | HashChange => flush (dispatch "hashchange" w)
  | ScriptFinished => flush (notify_scriptFinished w)
  | Unmount => inr (unmount w)
  end.

Fixpoint run (evs : list Event) (w : World) : Error + World :=
  match evs with
  | [] => inr w
  | e :: evs' =>
      match step e w with
      | inl err => inl err
      | inr w' => run evs' w'
      end
  end.

(* ================================================================== *)
(** ** AppUrlContext                                                   *)
(* ================================================================== *)

Module AppUrlContext.

(** AppUrlContext.ts:19-23 *)
Record StreamlitAppPage := {
  pageName : string;
  pageScriptHash : string;
  icon : option string
}.

(** The entries of a [URLSearchParams], in order. *)
Definition URLSearchParams := list (string * string).

(** AppUrlContext.ts:25-29 *)
Record AppUrl := {
  appPages : list StreamlitAppPage;
  currentPageScriptHash : string;
  queryParams : URLSearchParams
}.

(** A React context: [createContext(defaultValue)]. *)
Record Context (A : Type) := { defaultValue : A }.
Arguments defaultValue {A} _.

Definition createContext {A : Type} (d : A) : Context A :=
  {| defaultValue := d |}.

(** [useContext(c)] in a component whose enclosing providers of [c] carry
    the values [providers], innermost first: the value of the nearest
    provider, or the default value of the context when there is none. *)
Definition useContext {A : Type} (c : Context A) (providers : list A) : A :=
  match providers with
  | v :: _ => v
  | [] => defaultValue c
  end.

(** AppUrlContext.ts:31-35 *)
Definition AppUrlContext : Context AppUrl :=
  createContext
    {| appPages := [];
       currentPageScriptHash := "";
       queryParams := [] |}.

(** AppUrlContext.ts:37-39 *)
Definition useStreamlitAppUrl (providers : list AppUrl) : AppUrl :=
  useContext AppUrlContext providers.

End AppUrlContext.

(* ================================================================== *)
(** ** Observations and invariants                                     *)
(* ================================================================== *)

(** The main region is the second child of the outer container,
    AppView.tsx:222-239. *)
Definition main_region (tree : ReactNode) : ReactNode :=
  nth 1 (children_of tree) RFalse.

(** The condition of the second effect, AppView.tsx:152. *)
Definition override_cond (props : AppViewProps) (override : bool) : bool :=
  showSidebar props override && hideSidebarNav props && negb override.

(** The value of the state cell; a component that is not mounted starts
    from the argument of [useState]. *)
Definition override_of (w : World) : bool :=
  match instance w with
  | Some f => state_showSidebarOverride f
  | None => false
  end.

Definition committed_hasSidebar (w : World) : bool :=
  match instance w with
  | Some f => hasSidebarElements (memoizedProps f)
  | None => false
  end.

Definition committed_hideSidebarNav (w : World) : bool :=
  match instance w with
  | Some f => hideSidebarNav (memoizedProps f)
  | None => false
  end.

(** The sidebar is on screen. *)
Definition sidebar_shown (w : World) : bool :=
  match instance w with
  | Some f => renders ThemedSidebar (rendered f)
  | None => false
  end.

Definition is_external (fn : Fn) : bool :=
  match fn_code fn with
  | External => true
  | _ => false
  end.

(** The only message shape: [{ type: "UPDATE_HASH", hash: h }]. *)
Definition update_hash_message (h : string) : IGuestToHostMessage :=
  [("type", "UPDATE_HASH"); ("hash", h)].

Definition is_update_hash (m : IGuestToHostMessage) : bool :=
  match m with
  | [(k1, v1); (k2, _)] =>
      String.eqb k1 "type" && String.eqb v1 "UPDATE_HASH" && String.eqb k2 "hash"
  | _ => false
  end.

Definition is_send (c : Call) : bool :=
  match c with
  | CallSendMessageToHost _ _ => true
  | _ => false
  end.

Definition call_ok (c : Call) : bool :=
  match c with
  | CallSendMessageToHost _ m => is_update_hash m
  | _ => true
  end.

(** A world in which AppView has not been mounted yet: it has made no
    call, and whatever is registered on the window and with the host
    belongs to other code and was allocated earlier. *)
Definition initial (w : World) : bool :=
  match instance w with Some _ => false | None => true end
  && match calls w with [] => true | _ => false end
  && forallb (fun e => (fn_id (ev_callback e) <? next_id w)%nat
                       && is_external (ev_callback e))
       (window_listeners w)
  && forallb (fun h => (fn_id h <? next_id w)%nat && is_external h)
       (scriptFinishedHandlers w).

(** Events after which a latched sidebar must still be shown: everything
    but unmounting, and but a script run that finishes while the committed
    sidebar region is empty. *)
Definition keeps_latch (e : Event) (w : World) : bool :=
  match e with
  | Unmount => false
  | ScriptFinished => committed_hasSidebar w
  | _ => true
  end.

Fixpoint keeps_latch_along (evs : list Event) (w : World) : bool :=
  match evs with
  | [] => true
  | e :: evs' =>
      keeps_latch e w
      && match step e w with
         | inr w' => keeps_latch_along evs' w'
         | inl _ => true
         end
  end.

Section Invariant.
(** The registrations of other code, and a bound on their identities. *)
Variable L : list EventListener.
Variable H : list Fn.
Variable bound : nat.

Definition hashchange_entry (l : Fn) : EventListener :=
  {| ev_type := "hashchange"; ev_callback := l; ev_capture := false |}.

(** What a commit leaves behind: [f] is mounted, its slots describe the
    render made with state value [co], and the one listener [cm_listener]
    and the one handler [cm_handler] of AppView that are registered are
    those its cleanups remove. *)
Record committed (w : World) (f : Fiber) (co : bool)
    (cm_listener cm_handler : Fn) : Prop := {
  cm_instance : instance w = Some f;
  cm_bound : bound <= next_id w;
  cm_foreign_l :
    Forall (fun e => fn_id (ev_callback e) < bound
                     /\ fn_code (ev_callback e) = External) L;
  cm_foreign_h :
    Forall (fun h => fn_id h < bound /\ fn_code h = External) H;
  cm_calls : forallb call_ok (calls w) = true;
  cm_listeners : window_listeners w = (L ++ [hashchange_entry cm_listener])%list;
  cm_handlers : scriptFinishedHandlers w = (H ++ [cm_handler])%list;
  cm_listener_id : bound <= fn_id cm_listener < next_id w;
  cm_handler_id : bound <= fn_id cm_handler < next_id w;
  cm_listener_code :
    fn_code cm_listener = HashChangeListener (sendMessageToHost (memoizedProps f));
  cm_handler_code :
    fn_code cm_handler
    = ScriptFinishedHandler (hasSidebarElements (memoizedProps f)) co;
  cm_listener_added :
    In (CallAddEventListener "hashchange" cm_listener false) (calls w);
  cm_handler_added :
    In (CallAddScriptFinishedHandler
          (addScriptFinishedHandler (memoizedLibContext f)) cm_handler)
       (calls w);
  cm_effect1 :
    hashchangeEffect f
    = Some (sendMessageToHost (memoizedProps f),
            RemoveEventListener "hashchange" cm_listener false);
  cm_effect2 :
    overrideEffect f
    = Some (showSidebar (memoizedProps f) co,
            hideSidebarNav (memoizedProps f), co);
  cm_callback :
    scriptFinishedCallback f
    = Some (cm_handler, (hasSidebarElements (memoizedProps f), co));
  cm_effect3 :
    scriptFinishedEffect f
    = Some ((cm_handler,
             addScriptFinishedHandler (memoizedLibContext f),
             removeScriptFinishedHandler (memoizedLibContext f)),
            RemoveScriptFinishedHandler
              (removeScriptFinishedHandler (memoizedLibContext f)) cm_handler);
  cm_rendered :
    rendered f
    = AppView_render (memoizedAppContext f) (memoizedProps f) co
}.

(** Between events: AppView is not mounted and has nothing registered, or
    it is mounted, its last render used the current state, no re-render is
    pending and the second effect has nothing left to do. *)
Inductive stable (w : World) : Prop :=
| stable_unmounted :
    instance w = None ->
    bound <= next_id w ->
    Forall (fun e => fn_id (ev_callback e) < bound
                     /\ fn_code (ev_callback e) = External) L ->
    Forall (fun h => fn_id h < bound /\ fn_code h = External) H ->
    forallb call_ok (calls w) = true ->
    window_listeners w = L ->
    scriptFinishedHandlers w = H ->
    stable w
| stable_mounted f l h :
    committed w f (state_showSidebarOverride f) l h ->
    pendingUpdate f = false ->
    override_cond (memoizedProps f) (state_showSidebarOverride f) = false ->
    stable w.
End Invariant.

(** A world from which a render can start: a stable one, or one in the
    middle of a render loop, where the second effect of the last commit may
    just have set the override. *)
Definition renderable (L : list EventListener) (H : list Fn) (bound : nat)
    (w : World) : Prop :=
  stable L H bound w
  \/ exists f co l h,
       committed L H bound w f co l h
       /\ (override_cond (memoizedProps f) co = true
           -> state_showSidebarOverride f = true).

Definition is_mounted (w : World) : bool :=
  match instance w with
  | Some _ => true
  | None => false
  end.

(** What the commit of a render made with state value [st] keeps true of
    the state cell: it is untouched, or the second effect has just set it
    and asked for a re-render. *)
Definition state_after_render (st : bool) (w : World) : Prop :=
  exists f,
    instance w = Some f
    /\ ((state_showSidebarOverride f = st /\ pendingUpdate f = false)
        \/ (st = false /\ state_showSidebarOverride f = true
            /\ pendingUpdate f = true)).

(* ================================================================== *)
(** ** Sample inputs                                                   *)
(* ================================================================== *)

Module Sample.

Definition block (empty : bool) (types : list string) : BlockNode.t :=
  {| BlockNode.isEmpty := empty;
     BlockNode.scriptRunId := "run-1";
     BlockNode.getElements :=
       map (fun t => {| Element.type := t; Element.id := 0 |}) types |}.

Definition page (name : string) : IAppPage.t :=
  {| IAppPage.pageName := name; IAppPage.pageScriptHash := name |}.

(** Props with the given sidebar emptiness, pages, [hideSidebarNav] and
    [sendMessageToHost]; the main region holds one text element. *)
Definition props (sidebarEmpty : bool) (pages : list IAppPage.t)
    (hide : bool) (send : FnId) : AppViewProps :=
  {| elements :=
       {| AppRoot.main := block false ["text"];
          AppRoot.sidebar := block sidebarEmpty [];
          AppRoot.event := block true [] |};
     endpoints := 0;
     sessionInfo := 1;
     sendMessageToHost := send;
     scriptRunId := "run-1";
     scriptRunState := "running";
     widgetMgr := 2;
     uploadClient := 3;
     widgetsDisabled := false;
     componentRegistry := 4;
     formsData := 5;
     appPages := pages;
     onPageChange := 6;
     currentPageScriptHash := "a";
     hideSidebarNav := hide |}.

Definition ctx : AppContextProps :=
  {| wideMode := false;
     initialSidebarState := 0;
     embedded := false;
     showPadding := true;
     disableScrolling := false;
     showFooter := true;
     showToolbar := true;
     showColoredLine := false;
     toastAdjustment := false |}.

Definition lctx : LibContextProps :=
  {| addScriptFinishedHandler := 20; removeScriptFinishedHandler := 21 |}.

(** Before AppView mounts: another module listens to hashchange and to the
    end of script runs. *)
Definition w0 : World :=
  {| next_id := 10;
     location_hash := "#intro";
     window_listeners :=
       [ {| ev_type := "hashchange";
            ev_callback := {| fn_id := 3; fn_code := External |};
            ev_capture := false |} ];
     scriptFinishedHandlers := [ {| fn_id := 4; fn_code := External |} ];
     calls := [];
     instance := None |}.

(** AppView mounts with a non-empty sidebar and [hideSidebarNav]; the next
    script run empties the sidebar; the user follows an anchor. *)
Definition events : list Event :=
  [ Render (props false [page "a"] true 30) ctx lctx;
    Render (props true [page "a"] true 30) ctx lctx;
    Navigate "#usage";
    HashChange ].

Definition w1 : World := Eval vm_compute in
    match run events w0 with
    | inr w => w
    | inl _ => w0
    end.

Definition fiber1 : Fiber := Eval vm_compute in
    match instance w1 with
    | Some f => f
    | None => initial_fiber (props true [] false 0) ctx lctx
    end.

(** What happens next while the latch holds. *)
Definition later_events : list Event :=
  [ Render (props true [page "a"; page "b"] true 31) ctx lctx;
    Navigate "#api";
    HashChange ].

End Sample.

(* ================================================================== *)
(** ** Further observations                                            *)
(* ================================================================== *)

(** The [node] prop of a VerticalBlock element. *)
Definition block_node (n : ReactNode) : option BlockNode.t :=
  match prop "node" n with
  | Some (VBlockNode b) => Some b
  | _ => None
  end.

(** The messages AppView has sent to the host so far. *)
Definition sent (w : World) : list Call := filter is_send (calls w).

(** The [sendMessageToHost] of the committed props, when AppView is
    mounted. *)
Definition current_send (w : World) : option FnId :=
  match instance w with
  | Some f => Some (sendMessageToHost (memoizedProps f))
  | None => None
  end.

(** The messages the events [evs] make AppView send, when
    [window.location.hash] is [hash] at the start and [send] is the
    [sendMessageToHost] of the mounted AppView, if it is mounted: each
    hashchange event that finds it mounted sends the hash of that moment to
    the function of the last render. *)
Fixpoint messages (hash : string) (send : option FnId) (evs : list Event)
    : list Call :=
  match evs with
  | [] => []
  | Render props _ _ :: evs' =>
      messages hash (Some (sendMessageToHost props)) evs'
  | Navigate hash' :: evs' => messages hash' send evs'
  | HashChange :: evs' =>
      match send with
      | Some s => [CallSendMessageToHost s (update_hash_message hash)]
      | None => []
      end ++ messages hash send evs'
  | ScriptFinished :: evs' => messages hash send evs'
  | Unmount :: evs' => messages hash None evs'
  end.

(* ================================================================== *)
(** ** Lemmas                                                          *)
(* ================================================================== *)

(* ------------------------------------------------------------------ *)
(** *** Registrations of other code are out of reach                   *)

Section Foreign.
Variable bound : nat.

Lemma existsb_same_listener_fresh L type l capture :
  Forall (fun e => fn_id (ev_callback e) < bound
                   /\ fn_code (ev_callback e) = External) L ->
  bound <= fn_id l ->
  existsb (same_listener type l capture) L = false.
Proof.
  intros HL Hl. induction HL as [|e L [He _] _ IH]; simpl; [reflexivity|].
  rewrite IH, orb_false_r. unfold same_listener, same_fn.
  replace (Nat.eqb (fn_id (ev_callback e)) (fn_id l)) with false.
  - now rewrite andb_false_r.
  - symmetry. apply Nat.eqb_neq. lia.
Qed.

Lemma filter_same_listener_fresh L type l capture :
  Forall (fun e => fn_id (ev_callback e) < bound
                   /\ fn_code (ev_callback e) = External) L ->
  bound <= fn_id l ->
  filter (fun e => negb (same_listener type l capture e)) L = L.
Proof.
  intros HL Hl. induction HL as [|e L [He _] _ IH]; simpl; [reflexivity|].
  rewrite IH. unfold same_listener, same_fn.
  replace (Nat.eqb (fn_id (ev_callback e)) (fn_id l)) with false.
  - now rewrite andb_false_r.
  - symmetry. apply Nat.eqb_neq. lia.
Qed.

Lemma filter_same_fn_fresh H h :
  Forall (fun h' => fn_id h' < bound /\ fn_code h' = External) H ->
  bound <= fn_id h ->
  filter (fun h' => negb (same_fn h' h)) H = H.
Proof.
  intros HH Hh. induction HH as [|e H [He _] _ IH]; simpl; [reflexivity|].
  rewrite IH. unfold same_fn.
  replace (Nat.eqb (fn_id e) (fn_id h)) with false; [reflexivity|].
  symmetry. apply Nat.eqb_neq. lia.
Qed.

Lemma filter_listeners_own L l :
  Forall (fun e => fn_id (ev_callback e) < bound
                   /\ fn_code (ev_callback e) = External) L ->
  bound <= fn_id l ->
  filter (fun e => negb (same_listener "hashchange" l false e))
    (L ++ [hashchange_entry l]) = L.
Proof.
  intros HL Hl. rewrite filter_app, filter_same_listener_fresh by assumption.
  simpl. unfold same_listener, same_fn. simpl. rewrite Nat.eqb_refl. simpl.
  apply app_nil_r.
Qed.

Lemma filter_handlers_own H h :
  Forall (fun h' => fn_id h' < bound /\ fn_code h' = External) H ->
  bound <= fn_id h ->
  filter (fun h' => negb (same_fn h' h)) (H ++ [h]) = H.
Proof.
  intros HH Hh. rewrite filter_app, filter_same_fn_fresh by assumption.
  simpl. unfold same_fn. rewrite Nat.eqb_refl. simpl. apply app_nil_r.
Qed.
End Foreign.

(* ------------------------------------------------------------------ *)
(** *** One render pass keeps the commit invariant                     *)

Ltac reduce_world :=
  cbn -[AppView_render showSidebar hasSidebarElements override_cond
        Nat.eqb filter existsb forallb In].

Ltac normalize_world bound :=
  repeat first
    [ rewrite (filter_listeners_own bound) by (assumption || lia)
    | rewrite (filter_handlers_own bound) by (assumption || lia)
    | rewrite (existsb_same_listener_fresh bound) by (assumption || (cbn; lia))
    | progress unfold window_addEventListener
    | progress reduce_world ].

Ltac solve_committed bound :=
  normalize_world bound;
  do 3 eexists; split;
  [ constructor; normalize_world bound;
    [ reflexivity
    | lia
    | assumption
    | assumption
    | rewrite ?forallb_app; cbn;
      repeat match goal with Hc : forallb call_ok _ = true |- _ => rewrite Hc end;
      reflexivity
    | reflexivity
    | reflexivity
    | cbn; lia
    | cbn; lia
    | first [assumption | reflexivity]
    | first [assumption | reflexivity]
    | rewrite ?in_app_iff; simpl; tauto
    | rewrite ?in_app_iff; simpl; tauto
    | reflexivity
    | reflexivity
    | reflexivity
    | reflexivity
    | reflexivity ]
  | normalize_world bound; repeat split; try reflexivity ].

Lemma override_cond_true p st :
  override_cond p st = true -> st = false.
Proof.
  unfold override_cond. destruct st; [|reflexivity].
  rewrite andb_false_r. discriminate.
Qed.

Lemma render_pass_committed L H bound p c lc w f co l h :
  committed L H bound w f co l h ->
  (override_cond (memoizedProps f) co = true -> state_showSidebarOverride f = true) ->
  exists f' l' h',
    committed L H bound (render_pass p c lc w) f' (state_showSidebarOverride f) l' h'
    /\ memoizedProps f' = p /\ memoizedAppContext f' = c /\ memoizedLibContext f' = lc
    /\ state_showSidebarOverride f'
       = state_showSidebarOverride f || override_cond p (state_showSidebarOverride f)
    /\ pendingUpdate f' = override_cond p (state_showSidebarOverride f)
    /\ location_hash (render_pass p c lc w) = location_hash w.
Proof.
  intros [Hi Hb HfL HfH Hc Hwl Hsh Hlid Hhid Hlc Hhc Hla Hha He1 He2 Hcb He3 Hr] Hcond.
  destruct w as [nid hash wl sh cl inst]. simpl in *. subst inst wl sh.
  destruct f as [mp mc ml st pend e1 e2 cb e3 rd]. simpl in *. subst e1 e2 cb e3 rd.
  unfold render_pass.
  cbn -[commit_effects AppView_render showSidebar hasSidebarElements override_cond Nat.eqb Bool.eqb filter existsb].
  assert (Hfresh : Nat.eqb (fn_id h) nid = false) by (apply Nat.eqb_neq; lia).
  assert (Hoe : forall w,
             override_effect (showSidebar p st) (hideSidebarNav p) st w
             = if override_cond p st then setShowSidebarOverride true w else w)
    by reflexivity.
  destruct (override_cond p st) eqn:Ec.
  - (* the second effect asks for the override *)
    assert (st = false) by (eapply override_cond_true; eassumption). subst st.
    assert (Ed : eqb (showSidebar mp co) (showSidebar p false)
                 && eqb (hideSidebarNav mp) (hideSidebarNav p) && eqb co false = false).
    { destruct (_ && _) eqn:Ed; [exfalso|reflexivity].
      apply andb_true_iff in Ed as [Ed Ed3]; apply andb_true_iff in Ed as [Ed1 Ed2].
      apply eqb_prop in Ed1, Ed2, Ed3. subst co.
      unfold override_cond in Hcond, Ec. rewrite Ed1, Ed2 in Hcond.
      specialize (Hcond Ec). discriminate. }
    rewrite Ed.
    destruct (eqb (hasSidebarElements mp) (hasSidebarElements p) && eqb co false) eqn:E2;
    [ apply andb_true_iff in E2 as [E2a E2b]; apply eqb_prop in E2a, E2b; subst co;
      unfold same_fn; rewrite Nat.eqb_refl
    | unfold same_fn; cbn [fn_id]; rewrite Hfresh ];
    destruct (Nat.eqb_spec (sendMessageToHost mp) (sendMessageToHost p)) as [E1|E1];
    destruct (Nat.eqb_spec (addScriptFinishedHandler ml) (addScriptFinishedHandler lc)) as [Ea|Ea];
    destruct (Nat.eqb_spec (removeScriptFinishedHandler ml) (removeScriptFinishedHandler lc)) as [Er|Er];
    unfold commit_effects; rewrite ?Hoe, ?Ec;
    try rewrite E1 in *; try rewrite Ea in *; try rewrite Er in *; try rewrite E2a in *;
    solve_committed bound.
  - (* the second effect leaves the state alone *)
    rewrite orb_false_r.
    destruct (eqb (showSidebar mp co) (showSidebar p st)
              && eqb (hideSidebarNav mp) (hideSidebarNav p) && eqb co st) eqn:Ed;
    [ apply andb_true_iff in Ed as [Ed Ed3]; apply andb_true_iff in Ed as [Ed1 Ed2];
      apply eqb_prop in Ed1, Ed2, Ed3 | ];
    (destruct (eqb (hasSidebarElements mp) (hasSidebarElements p) && eqb co st) eqn:E2;
     [ apply andb_true_iff in E2 as [E2a E2b]; apply eqb_prop in E2a, E2b;
       unfold same_fn; rewrite Nat.eqb_refl
     | unfold same_fn; cbn [fn_id]; rewrite Hfresh ]);
    try subst co;
    destruct (Nat.eqb_spec (sendMessageToHost mp) (sendMessageToHost p)) as [E1|E1];
    destruct (Nat.eqb_spec (addScriptFinishedHandler ml) (addScriptFinishedHandler lc)) as [Ea|Ea];
    destruct (Nat.eqb_spec (removeScriptFinishedHandler ml) (removeScriptFinishedHandler lc)) as [Er|Er];
    unfold commit_effects; rewrite ?Hoe, ?Ec;
    try rewrite E1 in *; try rewrite Ea in *; try rewrite Er in *; try rewrite E2a in *;
    try rewrite Ed1 in *; try rewrite Ed2 in *.
    all: solve_committed bound.
Qed.


(* ------------------------------------------------------------------ *)
(** *** The render loop reaches a stable world                         *)

Lemma render_pass_mount L H bound p c lc w :
  instance w = None ->
  bound <= next_id w ->
  Forall (fun e => fn_id (ev_callback e) < bound
                   /\ fn_code (ev_callback e) = External) L ->
  Forall (fun h => fn_id h < bound /\ fn_code h = External) H ->
  forallb call_ok (calls w) = true ->
  window_listeners w = L ->
  scriptFinishedHandlers w = H ->
  exists f' l' h',
    committed L H bound (render_pass p c lc w) f' false l' h'
    /\ memoizedProps f' = p /\ memoizedAppContext f' = c /\ memoizedLibContext f' = lc
    /\ state_showSidebarOverride f' = false || override_cond p false
    /\ pendingUpdate f' = override_cond p false
    /\ location_hash (render_pass p c lc w) = location_hash w.
Proof.
  intros Hi Hb HfL HfH Hc Hwl Hsh.
  destruct w as [nid hash wl sh cl inst]. simpl in *. subst inst wl sh.
  unfold render_pass, commit_effects.
  assert (Hoe : forall w,
             override_effect (showSidebar p false) (hideSidebarNav p) false w
             = if override_cond p false then setShowSidebarOverride true w else w)
    by reflexivity.
  cbn -[AppView_render showSidebar hasSidebarElements override_cond
        override_effect Nat.eqb filter existsb forallb In].
  rewrite Hoe.
  destruct (override_cond p false) eqn:Ec; solve_committed bound.
Qed.

Lemma stable_renderable L H bound w :
  stable L H bound w -> renderable L H bound w.
Proof. intros Hs. left. exact Hs. Qed.

Lemma override_cond_override p : override_cond p true = false.
Proof. unfold override_cond. apply andb_false_r. Qed.

Lemma orb_override_cond p st :
  st || override_cond p st = st || (showSidebar p st && hideSidebarNav p).
Proof. unfold override_cond. destruct st; simpl; [reflexivity|]. now rewrite andb_true_r. Qed.

(** One pass from a renderable world. *)
Lemma render_pass_renderable L H bound p c lc w :
  renderable L H bound w ->
  exists f' l' h',
    committed L H bound (render_pass p c lc w) f' (override_of w) l' h'
    /\ memoizedProps f' = p /\ memoizedAppContext f' = c /\ memoizedLibContext f' = lc
    /\ state_showSidebarOverride f' = override_of w || override_cond p (override_of w)
    /\ pendingUpdate f' = override_cond p (override_of w)
    /\ location_hash (render_pass p c lc w) = location_hash w.
Proof.
  intros [[Hi Hb HfL HfH Hc Hwl Hsh | f l h Hcm Hp Hoc] | (f & co & l & h & Hcm & Hoc)].
  - unfold override_of. rewrite Hi.
    now apply render_pass_mount.
  - unfold override_of. rewrite (cm_instance _ _ _ _ _ _ _ _ Hcm).
    eapply render_pass_committed; [exact Hcm|]. rewrite Hoc. discriminate.
  - unfold override_of. rewrite (cm_instance _ _ _ _ _ _ _ _ Hcm).
    eapply render_pass_committed; eassumption.
Qed.

(** Two passes are always enough: the render loop ends in a stable world. *)
Lemma render_loop_stable L H bound p c lc w n :
  renderable L H bound w ->
  exists w' f' l' h',
    render_loop (S (S n)) p c lc w = inr w'
    /\ stable L H bound w'
    /\ committed L H bound w' f' (state_showSidebarOverride f') l' h'
    /\ memoizedProps f' = p /\ memoizedAppContext f' = c /\ memoizedLibContext f' = lc
    /\ state_showSidebarOverride f'
       = override_of w || (showSidebar p (override_of w) && hideSidebarNav p)
    /\ location_hash w' = location_hash w.
Proof.
  intros Hr.
  destruct (render_pass_renderable L H bound p c lc w Hr)
    as (f1 & l1 & h1 & Hcm1 & Hp1 & Hc1 & Hl1 & Hs1 & Hpe1 & Hh1).
  rewrite <- orb_override_cond.
  cbn [render_loop]. unfold is_pending at 1.
  rewrite (cm_instance _ _ _ _ _ _ _ _ Hcm1), Hpe1.
  destruct (override_cond p (override_of w)) eqn:Ec.
  - (* the effect asked for the override: one more pass *)
    pose proof (override_cond_true _ _ Ec) as Hst. rewrite Hst in *.
    simpl in Hs1.
    assert (Hr1 : renderable L H bound (render_pass p c lc w)).
    { right. exists f1, false, l1, h1. split; [exact Hcm1|]. intros _. exact Hs1. }
    destruct (render_pass_renderable L H bound p c lc _ Hr1)
      as (f2 & l2 & h2 & Hcm2 & Hp2 & Hc2 & Hl2 & Hs2 & Hpe2 & Hh2).
    assert (Ho1 : override_of (render_pass p c lc w) = true)
      by (unfold override_of; now rewrite (cm_instance _ _ _ _ _ _ _ _ Hcm1)).
    rewrite Ho1 in *. rewrite override_cond_override in *. simpl in Hs2.
    unfold is_pending. rewrite (cm_instance _ _ _ _ _ _ _ _ Hcm2), Hpe2.
    exists (render_pass p c lc (render_pass p c lc w)), f2, l2, h2.
    rewrite Hs2.
    split; [reflexivity|]. split; [|split; [exact Hcm2|]].
    + eapply stable_mounted with (f := f2); rewrite ?Hs2, ?Hp2; try eassumption.
      apply override_cond_override.
    + repeat split; try assumption; congruence.
  - rewrite orb_false_r in *.
    exists (render_pass p c lc w), f1, l1, h1.
    rewrite Hs1.
    split; [reflexivity|]. split; [|split; [exact Hcm1|]].
    + eapply stable_mounted with (f := f1); rewrite ?Hs1, ?Hp1; eassumption.
    + repeat split; assumption.
Qed.

(* ------------------------------------------------------------------ *)
(** *** Code of other modules leaves AppView alone                     *)

Lemma dispatch_foreign bound type L w :
  Forall (fun e => fn_id (ev_callback e) < bound
                   /\ fn_code (ev_callback e) = External) L ->
  fold_left
    (fun w e => if String.eqb (ev_type e) type then invoke (ev_callback e) w else w)
    L w = w.
Proof.
  intros HL. revert w. induction HL as [|e L [_ He] _ IH]; intros w; simpl.
  - reflexivity.
  - unfold invoke. rewrite He. destruct (String.eqb _ _); apply IH.
Qed.

Lemma notify_foreign bound H w :
  Forall (fun h => fn_id h < bound /\ fn_code h = External) H ->
  fold_left (fun w h => invoke h w) H w = w.
Proof.
  intros HH. revert w. induction HH as [|h H [_ Hh] _ IH]; intros w; simpl.
  - reflexivity.
  - unfold invoke. rewrite Hh. apply IH.
Qed.

(* ------------------------------------------------------------------ *)
(** *** Each event takes a stable world to a stable world              *)

Section Steps.
Variable L : list EventListener.
Variable H : list Fn.
Variable bound : nat.

Lemma committed_log c w f co l h :
  call_ok c = true ->
  committed L H bound w f co l h ->
  committed L H bound (log c w) f co l h.
Proof.
  intros Hc [Ci Cb CfL CfH Cc Cwl Csh Clid Chid Clc Chc Cla Cha Ce1 Ce2 Ccb Ce3 Cr].
  destruct w as [nid hash wl sh cl inst]; simpl in *.
  constructor; simpl; try assumption.
  - rewrite forallb_app. simpl. now rewrite Cc, Hc.
  - apply in_or_app. now left.
  - apply in_or_app. now left.
Qed.

Lemma committed_set_location_hash hash' w f co l h :
  committed L H bound w f co l h ->
  committed L H bound (set_location_hash hash' w) f co l h.
Proof.
  intros [Ci Cb CfL CfH Cc Cwl Csh Clid Chid Clc Chc Cla Cha Ce1 Ce2 Ccb Ce3 Cr].
  destruct w as [nid hash wl sh cl inst]; simpl in *.
  constructor; simpl; assumption.
Qed.

Lemma flush_idle w :
  is_pending w = false -> flush w = inr w.
Proof.
  unfold is_pending, flush. destruct (instance w) as [f|]; [|reflexivity].
  intros ->. reflexivity.
Qed.

Lemma step_Navigate_stable hash w :
  stable L H bound w ->
  stable L H bound (set_location_hash hash w)
  /\ instance (set_location_hash hash w) = instance w
  /\ calls (set_location_hash hash w) = calls w.
Proof.
  intros Hs. split; [|destruct w; split; reflexivity].
  destruct Hs as [Hi Hb HfL HfH Hc Hwl Hsh | f l h Hcm Hp Hoc].
  - destruct w; simpl in *. now apply stable_unmounted.
  - eapply stable_mounted; eauto using committed_set_location_hash.
Qed.

Lemma step_HashChange_stable w :
  stable L H bound w ->
  exists w',
    step HashChange w = inr w'
    /\ stable L H bound w'
    /\ instance w' = instance w
    /\ location_hash w' = location_hash w
    /\ calls w'
       = (calls w
            ++ match instance w with
               | Some f =>
                   [CallSendMessageToHost (sendMessageToHost (memoizedProps f))
                      (update_hash_message (location_hash w))]
               | None => []
               end)%list.
Proof.
  intros Hs. pose proof Hs as Hs'.
  destruct Hs as [Hi Hb HfL HfH Hc Hwl Hsh | f l h Hcm Hp Hoc].
  - exists w. unfold step, dispatch. rewrite Hwl, (dispatch_foreign bound) by assumption.
    rewrite flush_idle by (unfold is_pending; now rewrite Hi).
    rewrite Hi, app_nil_r. auto.
  - pose proof Hcm as [Ci Cb CfL CfH Cc Cwl Csh Clid Chid Clc Chc Cla Cha Ce1 Ce2 Ccb Ce3 Cr].
    exists (log (CallSendMessageToHost (sendMessageToHost (memoizedProps f))
                   (update_hash_message (location_hash w))) w).
    unfold step, dispatch.
    rewrite Cwl, fold_left_app, (dispatch_foreign bound _ L) by assumption.
    cbn [fold_left ev_type ev_callback hashchange_entry String.eqb Ascii.eqb Bool.eqb].
    unfold invoke. rewrite Clc.
    unfold host_sendMessageToHost. rewrite flush_idle.
    + split; [reflexivity|]. split.
      * eapply stable_mounted; eauto.
        apply (committed_log (CallSendMessageToHost _ _)); [reflexivity|exact Hcm].
      * rewrite Ci. destruct w; repeat split; assumption.
    + unfold is_pending. destruct w; simpl in *. subst. exact Hp.
Qed.

Lemma step_Unmount_stable w :
  stable L H bound w ->
  stable L H bound (unmount w)
  /\ instance (unmount w) = None
  /\ window_listeners (unmount w) = L
  /\ scriptFinishedHandlers (unmount w) = H
  /\ location_hash (unmount w) = location_hash w
  /\ match instance w with
     | Some f =>
         exists l h,
           committed L H bound w f (state_showSidebarOverride f) l h
           /\ calls (unmount w)
              = (calls w
                   ++ [CallRemoveEventListener "hashchange" l false;
                       CallRemoveScriptFinishedHandler
                         (removeScriptFinishedHandler (memoizedLibContext f)) h])%list
     | None => calls (unmount w) = calls w
     end.
Proof.
  intros [Hi Hb HfL HfH Hc Hwl Hsh | f l h Hcm Hp Hoc].
  - unfold unmount. rewrite Hi. repeat split; try assumption.
    now apply stable_unmounted.
  - pose proof Hcm as [Ci Cb CfL CfH Cc Cwl Csh Clid Chid Clc Chc Cla Cha Ce1 Ce2 Ccb Ce3 Cr].
    unfold unmount. rewrite Ci, Ce1, Ce3.
    destruct w as [nid hash wl sh cl inst]; simpl in *. subst wl sh.
    rewrite (filter_listeners_own bound), (filter_handlers_own bound)
      by (assumption || lia).
    split; [|repeat split].
    + apply stable_unmounted; simpl; try assumption; try reflexivity.
      rewrite !forallb_app, Cc. reflexivity.
    + exists l, h. split; [assumption|]. now rewrite <- app_assoc.
Qed.

Lemma step_Render_stable p c lc w :
  stable L H bound w ->
  exists w' f' l' h',
    step (Render p c lc) w = inr w'
    /\ stable L H bound w'
    /\ committed L H bound w' f' (state_showSidebarOverride f') l' h'
    /\ memoizedProps f' = p /\ memoizedAppContext f' = c /\ memoizedLibContext f' = lc
    /\ state_showSidebarOverride f'
       = override_of w || (showSidebar p (override_of w) && hideSidebarNav p)
    /\ location_hash w' = location_hash w.
Proof.
  intros Hs. apply render_loop_stable. now left.
Qed.

Lemma committed_setShowSidebarOverride_false w f l h :
  committed L H bound w f true l h ->
  state_showSidebarOverride f = true ->
  committed L H bound (setShowSidebarOverride false w) (store_state false f) true l h
  /\ instance (setShowSidebarOverride false w) = Some (store_state false f)
  /\ location_hash (setShowSidebarOverride false w) = location_hash w.
Proof.
  intros [Ci Cb CfL CfH Cc Cwl Csh Clid Chid Clc Chc Cla Cha Ce1 Ce2 Ccb Ce3 Cr] Hst.
  destruct w as [nid hash wl sh cl inst]; simpl in *. subst inst.
  destruct f as [mp mc ml st pend e1 e2 cb e3 rd]; simpl in *. subst st.
  unfold setShowSidebarOverride. simpl.
  split; [|split; reflexivity].
  constructor; simpl; try assumption; try reflexivity.
  - rewrite forallb_app, Cc. reflexivity.
  - apply in_or_app. now left.
  - apply in_or_app. now left.
Qed.

Lemma step_ScriptFinished_stable w :
  stable L H bound w ->
  exists w',
    step ScriptFinished w = inr w'
    /\ stable L H bound w'
    /\ is_mounted w' = is_mounted w
    /\ override_of w' = override_of w && committed_hasSidebar w
    /\ location_hash w' = location_hash w.
Proof.
  intros Hs.
  destruct Hs as [Hi Hb HfL HfH Hc Hwl Hsh | f l h Hcm Hp Hoc].
  - exists w. unfold step, notify_scriptFinished.
    rewrite Hsh, (notify_foreign bound) by assumption.
    rewrite flush_idle by (unfold is_pending; now rewrite Hi).
    unfold override_of. rewrite Hi. repeat split.
    now apply stable_unmounted.
  - pose proof Hcm as [Ci Cb CfL CfH Cc Cwl Csh Clid Chid Clc Chc Cla Cha Ce1 Ce2 Ccb Ce3 Cr].
    unfold step, notify_scriptFinished.
    rewrite Csh, fold_left_app, (notify_foreign bound H) by assumption.
    cbn [fold_left]. unfold invoke. rewrite Chc.
    unfold override_of, committed_hasSidebar, is_mounted. rewrite Ci.
    destruct (negb (hasSidebarElements (memoizedProps f))
              && state_showSidebarOverride f) eqn:Efire.
    + (* the handler resets the override *)
      apply andb_true_iff in Efire as [Ehs Est].
      apply negb_true_iff in Ehs. rewrite Est in *. rewrite Ehs.
      destruct (committed_setShowSidebarOverride_false w f l h Hcm Est)
        as (Hcm1 & Hi1 & Hh1).
      unfold flush. rewrite Hi1.
      replace (pendingUpdate (store_state false f)) with true
        by (destruct f; reflexivity).
      destruct (render_loop_stable L H bound
                  (memoizedProps (store_state false f))
                  (memoizedAppContext (store_state false f))
                  (memoizedLibContext (store_state false f))
                  (setShowSidebarOverride false w) 48)
        as (w' & f' & l' & h' & Hrun & Hs' & Hcm' & Hp' & _ & _ & Hst' & Hh').
      { right. exists (store_state false f), true, l, h.
        split; [exact Hcm1|]. rewrite override_cond_override. discriminate. }
      exists w'. split; [exact Hrun|]. split; [exact Hs'|].
      rewrite (cm_instance _ _ _ _ _ _ _ _ Hcm'), Hst'.
      unfold override_of. rewrite Hi1.
      replace (state_showSidebarOverride (store_state false f)) with false
        by (destruct f; reflexivity).
      replace (memoizedProps (store_state false f)) with (memoizedProps f)
        by (destruct f; reflexivity).
      split; [reflexivity|]. split; [|congruence].
      unfold showSidebar. rewrite Ehs. simpl.
      destruct (hideSidebarNav (memoizedProps f)); simpl;
        [reflexivity | apply andb_false_r].
    + exists w. rewrite flush_idle by (unfold is_pending; now rewrite Ci).
      rewrite Ci.
      split; [reflexivity|]. split; [eapply stable_mounted; eauto|].
      split; [reflexivity|]. split; [|reflexivity].
      destruct (hasSidebarElements (memoizedProps f)),
               (state_showSidebarOverride f); simpl in *; congruence.
Qed.

(** Every event can be taken from a stable world, and leads to one. *)
Lemma step_stable e w :
  stable L H bound w ->
  exists w', step e w = inr w' /\ stable L H bound w'.
Proof.
  intros Hs. destruct e as [p c lc | hash | | | ].
  - destruct (step_Render_stable p c lc w Hs) as (w' & ? & ? & ? & ? & ? & _). eauto.
  - exists (set_location_hash hash w). split; [reflexivity|].
    now apply step_Navigate_stable.
  - destruct (step_HashChange_stable w Hs) as (w' & ? & ? & _). eauto.
  - destruct (step_ScriptFinished_stable w Hs) as (w' & ? & ? & _). eauto.
  - exists (unmount w). split; [reflexivity|]. now apply step_Unmount_stable.
Qed.

Lemma run_stable evs w :
  stable L H bound w ->
  exists w', run evs w = inr w' /\ stable L H bound w'.
Proof.
  revert w. induction evs as [|e evs IH]; intros w Hs; simpl.
  - eauto.
  - destruct (step_stable e w Hs) as (w1 & Hstep & Hs1). rewrite Hstep.
    apply IH. exact Hs1.
Qed.
End Steps.

Lemma initial_stable w :
  initial w = true ->
  stable (window_listeners w) (scriptFinishedHandlers w) (next_id w) w
  /\ instance w = None /\ calls w = [].
Proof.
  unfold initial. intros Hi.
  apply andb_true_iff in Hi as [Hi Hh]. apply andb_true_iff in Hi as [Hi Hl].
  apply andb_true_iff in Hi as [Hi Hc].
  destruct (instance w) eqn:Ei; [discriminate|].
  destruct (calls w) eqn:Ec; [|discriminate].
  split; [|auto].
  apply stable_unmounted; try reflexivity; try assumption.
  - apply Forall_forall. intros e He.
    rewrite forallb_forall in Hl. specialize (Hl e He).
    apply andb_true_iff in Hl as [Hlt Hext]. apply Nat.ltb_lt in Hlt.
    split; [assumption|]. unfold is_external in Hext.
    destruct (fn_code (ev_callback e)); congruence.
  - apply Forall_forall. intros h Hh'.
    rewrite forallb_forall in Hh. specialize (Hh h Hh').
    apply andb_true_iff in Hh as [Hlt Hext]. apply Nat.ltb_lt in Hlt.
    split; [assumption|]. unfold is_external in Hext.
    destruct (fn_code h); congruence.
  - now rewrite Ec.
Qed.

(** From an initial world, every sequence of events runs to a stable world. *)
Lemma run_initial_stable w0 evs :
  initial w0 = true ->
  exists w,
    run evs w0 = inr w
    /\ stable (window_listeners w0) (scriptFinishedHandlers w0) (next_id w0) w.
Proof.
  intros Hi. apply run_stable. now apply initial_stable.
Qed.

(* ------------------------------------------------------------------ *)
(** *** The render loop ends, whatever the world                       *)

Lemma state_after_render_frame st w w' :
  instance w' = instance w ->
  state_after_render st w -> state_after_render st w'.
Proof. intros Hi (f & Hf & Hst). exists f. split; [congruence|exact Hst]. Qed.

Lemma instance_run_cleanup c w : instance (run_cleanup c w) = instance w.
Proof. destruct c, w; reflexivity. Qed.

Lemma instance_cleanup_slot {D} (slot : option (D * Cleanup)) w :
  instance (cleanup_slot slot w) = instance w.
Proof. destruct slot as [[d c]|]; [apply instance_run_cleanup|reflexivity]. Qed.

Lemma state_after_render_hashchange st p d w :
  state_after_render st w ->
  state_after_render st
    (let (w', cleanup) := hashchange_effect p w in
     update_fiber (store_hashchangeEffect (d, cleanup)) w').
Proof.
  intros (f & Hf & Hst). destruct w as [nid hash wl sh cl inst].
  simpl in Hf. subst inst.
  unfold hashchange_effect, alloc, window_addEventListener. simpl.
  destruct (existsb _ wl); simpl; destruct f; eexists; split; try reflexivity; exact Hst.
Qed.

Lemma state_after_render_override st show hide d w :
  state_after_render st w ->
  state_after_render st
    (update_fiber (store_overrideEffect d) (override_effect show hide st w)).
Proof.
  intros (f & Hf & Hst). destruct w as [nid hash wl sh cl inst].
  simpl in Hf. subst inst. destruct f as [mp mc ml s pend e1 e2 cb e3 rd].
  simpl in Hst. unfold override_effect, setShowSidebarOverride.
  destruct (show && hide && negb st) eqn:Ec; simpl.
  - apply andb_true_iff in Ec as [_ Ec]. apply negb_true_iff in Ec. subst st.
    destruct s; simpl; eexists; (split; [reflexivity|]); simpl.
    + destruct Hst as [[? _]|(_ & _ & ?)]; [discriminate|]. right. auto.
    + right. auto.
  - eexists. split; [reflexivity|]. exact Hst.
Qed.

Lemma state_after_render_scriptFinished st lc h d w :
  state_after_render st w ->
  state_after_render st
    (let (w', cleanup) := scriptFinished_effect lc h w in
     update_fiber (store_scriptFinishedEffect (d, cleanup)) w').
Proof.
  intros (f & Hf & Hst). destruct w as [nid hash wl sh cl inst].
  simpl in Hf. subst inst. simpl.
  destruct f; eexists; split; try reflexivity; exact Hst.
Qed.

Lemma state_after_render_commit st r1 r2 r3 p lc show h s1 s3 w :
  state_after_render st w ->
  state_after_render st (commit_effects r1 r2 r3 p lc show st h s1 s3 w).
Proof.
  intros Hw. unfold commit_effects.
  assert (H1 : state_after_render st (if r1 then cleanup_slot s1 w else w)).
  { destruct r1; [|exact Hw].
    eapply state_after_render_frame; [apply instance_cleanup_slot|exact Hw]. }
  revert H1. generalize (if r1 then cleanup_slot s1 w else w). intros w1 H1.
  assert (H2 : state_after_render st (if r3 then cleanup_slot s3 w1 else w1)).
  { destruct r3; [|exact H1].
    eapply state_after_render_frame; [apply instance_cleanup_slot|exact H1]. }
  revert H2. generalize (if r3 then cleanup_slot s3 w1 else w1). intros w2 H2.
  cbv zeta.
  destruct r1, r2, r3;
    repeat first
      [ exact H2
      | apply state_after_render_scriptFinished
      | apply state_after_render_override
      | apply state_after_render_hashchange ].
Qed.

Lemma render_pass_state p c lc w :
  state_after_render (override_of w) (render_pass p c lc w).
Proof.
  unfold render_pass, override_of.
  destruct w as [nid hash wl sh cl [f|]]; cbn [instance alloc];
    apply state_after_render_commit;
    eexists; (split; [reflexivity|]); left; split; reflexivity.
Qed.

Lemma render_loop_total p c lc w n :
  exists w',
    render_loop (S (S n)) p c lc w = inr w'
    /\ is_pending w' = false
    /\ is_mounted w' = true.
Proof.
  cbn [render_loop].
  destruct (render_pass_state p c lc w) as (f1 & Hf1 & Hst1).
  unfold is_pending at 1. rewrite Hf1.
  destruct (pendingUpdate f1) eqn:Ep1.
  - destruct Hst1 as [[_ ?]|(_ & Hs1 & _)]; [congruence|].
    destruct (render_pass_state p c lc (render_pass p c lc w)) as (f2 & Hf2 & Hst2).
    unfold override_of in Hst2. rewrite Hf1, Hs1 in Hst2.
    destruct Hst2 as [[_ Hp2]|(? & _)]; [|discriminate].
    assert (Hq : is_pending (render_pass p c lc (render_pass p c lc w)) = false)
      by (unfold is_pending; now rewrite Hf2).
    rewrite Hq. eexists. split; [reflexivity|]. split; [exact Hq|].
    unfold is_mounted. now rewrite Hf2.
  - eexists. split; [reflexivity|]. unfold is_pending, is_mounted.
    now rewrite Hf1.
Qed.

Lemma flush_total w : exists w', flush w = inr w'.
Proof.
  unfold flush. destruct (instance w) as [f|]; [|eauto].
  destruct (pendingUpdate f); [|eauto].
  destruct (render_loop_total (memoizedProps f) (memoizedAppContext f)
              (memoizedLibContext f) w 48) as (w' & Hw' & _ & _).
  exists w'. exact Hw'.
Qed.

Lemma step_total e w : exists w', step e w = inr w'.
Proof.
  destruct e as [p c lc | hash | | | ]; unfold step.
  - destruct (render_loop_total p c lc w 48) as (w' & Hw' & _ & _).
    exists w'. exact Hw'.
  - eexists. reflexivity.
  - apply flush_total.
  - apply flush_total.
  - eexists. reflexivity.
Qed.

(* ------------------------------------------------------------------ *)
(** *** What the tree shows                                            *)

Lemma renders_ThemedSidebar ctx props ovr :
  renders ThemedSidebar (AppView_render ctx props ovr) = showSidebar props ovr.
Proof.
  unfold AppView_render, Component.
  destruct (showSidebar props ovr), (containsChatInput props),
    (hasEventElements props); reflexivity.
Qed.

Lemma sidebar_shown_stable L H bound w :
  stable L H bound w ->
  sidebar_shown w
  = match instance w with
    | Some f => showSidebar (memoizedProps f) (state_showSidebarOverride f)
    | None => false
    end.
Proof.
  intros [Hi _ _ _ _ _ _ | f l h Hcm _ _]; unfold sidebar_shown.
  - now rewrite Hi.
  - rewrite (cm_instance _ _ _ _ _ _ _ _ Hcm), (cm_rendered _ _ _ _ _ _ _ _ Hcm).
    apply renders_ThemedSidebar.
Qed.

(** Once the override is set, the events that keep the latch keep it set. *)
Lemma latch_holds L H bound evs :
  forall w,
    stable L H bound w ->
    is_mounted w = true ->
    override_of w = true ->
    keeps_latch_along evs w = true ->
    exists w',
      run evs w = inr w' /\ stable L H bound w'
      /\ is_mounted w' = true /\ override_of w' = true.
Proof.
  induction evs as [|e evs IH]; intros w Hs Hm Ho Hk.
  - exists w. auto.
  - cbn [keeps_latch_along] in Hk. cbn [run].
    apply andb_true_iff in Hk as [Hk1 Hk2].
    assert (Hnext : exists w1, step e w = inr w1 /\ stable L H bound w1
                               /\ is_mounted w1 = true /\ override_of w1 = true).
    { destruct e as [p c lc | hash | | | ].
      - destruct (step_Render_stable L H bound p c lc w Hs)
          as (w1 & f1 & l1 & h1 & Hst & Hs1 & Hcm1 & _ & _ & _ & Ho1 & _).
        exists w1. split; [exact Hst|]. split; [exact Hs1|].
        unfold is_mounted, override_of.
        rewrite (cm_instance _ _ _ _ _ _ _ _ Hcm1), Ho1, Ho. auto.
      - exists (set_location_hash hash w).
        destruct (step_Navigate_stable L H bound hash w Hs) as (Hs1 & Hi1 & _).
        unfold is_mounted, override_of in *. rewrite Hi1. auto.
      - destruct (step_HashChange_stable L H bound w Hs)
          as (w1 & Hst & Hs1 & Hi1 & _).
        exists w1. unfold is_mounted, override_of in *. rewrite Hi1. auto.
      - destruct (step_ScriptFinished_stable L H bound w Hs)
          as (w1 & Hst & Hs1 & Hm1 & Ho1 & _).
        exists w1. cbn [keeps_latch] in Hk1.
        rewrite Hm1, Ho1, Ho, Hk1, Hm. auto.
      - discriminate. }
    destruct Hnext as (w1 & Hst & Hs1 & Hm1 & Ho1).
    rewrite Hst in *. apply IH; assumption.
Qed.

Lemma run_total evs : forall w, exists w', run evs w = inr w'.
Proof.
  induction evs as [|e evs IH]; intros w; cbn [run].
  - eauto.
  - destruct (step_total e w) as (w1 & Hw1). rewrite Hw1. apply IH.
Qed.

Lemma is_update_hash_spec m :
  is_update_hash m = true -> exists h, m = update_hash_message h.
Proof.
  unfold is_update_hash, update_hash_message.
  destruct m as [|[k1 v1] [|[k2 v2] [|? ?]]]; try discriminate.
  intros Hm. apply andb_true_iff in Hm as [Hm H3]. apply andb_true_iff in Hm as [H1 H2].
  apply String.eqb_eq in H1, H2, H3. subst. eauto.
Qed.

Lemma stable_calls_ok L H bound w :
  stable L H bound w -> forallb call_ok (calls w) = true.
Proof.
  intros [_ _ _ _ Hc _ _ | f l h Hcm _ _]; [exact Hc|].
  exact (cm_calls _ _ _ _ _ _ _ _ Hcm).
Qed.

(* ================================================================== *)
(** ** The claims                                                      *)
(* ================================================================== *)

(** C1, as stated, fails. With [hideSidebarNav] set, an empty sidebar
    region and two pages, the claimed condition holds but no sidebar is
    rendered; with the override set, an empty sidebar region and one page,
    the claimed condition fails but the sidebar is rendered. *)
Lemma showSidebar_is_not_sidebar_or_pages :
  (let props := Sample.props true [Sample.page "a"; Sample.page "b"] true 30 in
   renders ThemedSidebar (AppView_render Sample.ctx props false) = false
   /\ showSidebar props false = false
   /\ negb (BlockNode.isEmpty (AppRoot.sidebar (elements props)))
      || (1 <? length (appPages props))%nat = true)
  /\
  (let props := Sample.props true [Sample.page "a"] false 30 in
   renders ThemedSidebar (AppView_render Sample.ctx props true) = true
   /\ showSidebar props true = true
   /\ negb (BlockNode.isEmpty (AppRoot.sidebar (elements props)))
      || (1 <? length (appPages props))%nat = false).
Proof. repeat split. Qed.

(** C1, amended: the sidebar region (ThemedSidebar) is rendered if and only
    if [showSidebar] holds, and [showSidebar] holds if and only if the
    sidebar region of the page tree is non-empty, or [hideSidebarNav] is
    false and there is more than one page, or the [showSidebarOverride]
    state is true. *)
Theorem sidebar_rendered_iff_showSidebar ctx props showSidebarOverride :
  renders ThemedSidebar (AppView_render ctx props showSidebarOverride)
  = showSidebar props showSidebarOverride
  /\ (showSidebar props showSidebarOverride = true
      <-> (BlockNode.isEmpty (AppRoot.sidebar (elements props)) = false
           \/ (hideSidebarNav props = false /\ 1 < length (appPages props))
           \/ showSidebarOverride = true)).
Proof.
  split; [apply renders_ThemedSidebar|].
  unfold showSidebar, hasSidebarElements.
  rewrite !orb_true_iff, andb_true_iff, !negb_true_iff, Nat.ltb_lt.
  tauto.
Qed.

(** C3: [containsChatInput] is true exactly when some element yielded by
    [elements.main.getElements()] has type "chatInput"; the main region is
    a ScrollToBottomContainer exactly when [containsChatInput] is true and
    a StyledAppViewMain otherwise. *)
Theorem containsChatInput_chooses_container ctx props showSidebarOverride :
  let tree := AppView_render ctx props showSidebarOverride in
  (containsChatInput props = true
   <-> exists element,
         In element (BlockNode.getElements (AppRoot.main (elements props)))
         /\ Element.type element = "chatInput")
  /\ is_element ScrollToBottomContainer (main_region tree)
     = containsChatInput props
  /\ is_element StyledAppViewMain (main_region tree)
     = negb (containsChatInput props)
  /\ renders ScrollToBottomContainer tree = containsChatInput props
  /\ renders StyledAppViewMain tree = negb (containsChatInput props).
Proof.
  cbv zeta. split.
  - unfold containsChatInput.
    destruct (find _ _) as [e|] eqn:Ef.
    + apply find_some in Ef as [Hin Ht]. apply String.eqb_eq in Ht.
      split; [eauto | reflexivity].
    + split; [discriminate|]. intros (e & Hin & Ht).
      pose proof (find_none _ _ Ef e Hin) as Hn. cbv beta in Hn.
      rewrite Ht in Hn. discriminate.
  - unfold AppView_render, main_region, Component.
    destruct (showSidebar props showSidebarOverride), (containsChatInput props),
      (hasEventElements props); repeat split.
Qed.

(** C5: the event overlay (EventContainer) is rendered exactly when
    [elements.event] is non-empty; when it is rendered, it is a child of the
    outer container, its [scriptRunId] prop is [elements.event.scriptRunId]
    and it wraps the rendered [elements.event] block. *)
Theorem event_container_iff_hasEventElements ctx props showSidebarOverride :
  let tree := AppView_render ctx props showSidebarOverride in
  renders EventContainer tree
  = negb (BlockNode.isEmpty (AppRoot.event (elements props)))
  /\ length (occurrences EventContainer tree)
     = (if BlockNode.isEmpty (AppRoot.event (elements props)) then 0 else 1)
  /\ forall n,
       In n (occurrences EventContainer tree) ->
       In n (children_of tree)
       /\ prop "scriptRunId" n
          = Some (VString (BlockNode.scriptRunId (AppRoot.event (elements props))))
       /\ children_of n
          = [renderBlock ctx props showSidebarOverride
               (AppRoot.event (elements props)) true].
Proof.
  cbv zeta. unfold AppView_render, Component, hasEventElements.
  destruct (showSidebar props showSidebarOverride) eqn:Es,
    (containsChatInput props) eqn:Ec,
    (BlockNode.isEmpty (AppRoot.event (elements props))) eqn:Ee;
    (split; [reflexivity|]); (split; [reflexivity|]);
    intros n Hn; cbn in Hn;
    try contradiction;
    (destruct Hn as [<-|[]]; cbn;
     split; [tauto|]; split; [reflexivity|];
     unfold renderBlock; rewrite ?Es, ?Ec; reflexivity).
Qed.

(** C6: the [data-layout] attribute of the outer container is "wide"
    exactly when [wideMode] is true, and "narrow" otherwise. *)
Theorem data_layout_reflects_wideMode ctx props showSidebarOverride :
  let tree := AppView_render ctx props showSidebarOverride in
  is_element StyledAppViewContainer tree = true
  /\ (prop "data-layout" tree = Some (VString "wide") <-> wideMode ctx = true)
  /\ (prop "data-layout" tree = Some (VString "narrow") <-> wideMode ctx = false).
Proof.
  cbv zeta. unfold AppView_render, layout. cbn.
  destruct (wideMode ctx); repeat split; intros; congruence.
Qed.

(** C8: the iframe-resizer anchor is rendered, as a child of the main
    region, exactly when [containsChatInput] is false; the scroll-anchored
    container and the anchor never occur in the same tree. *)
Theorem resizer_anchor_iff_no_chat_input ctx props showSidebarOverride :
  let tree := AppView_render ctx props showSidebarOverride in
  existsb (is_element StyledIFrameResizerAnchor) (children_of (main_region tree))
  = negb (containsChatInput props)
  /\ renders StyledIFrameResizerAnchor tree = negb (containsChatInput props)
  /\ renders ScrollToBottomContainer tree
     && renders StyledIFrameResizerAnchor tree = false.
Proof.
  cbv zeta. unfold AppView_render, main_region, Component.
  destruct (showSidebar props showSidebarOverride), (containsChatInput props),
    (hasEventElements props); repeat split.
Qed.

(** C10: without an AppUrlContext provider, [useStreamlitAppUrl] returns
    the default value: no pages, the empty string as current page script
    hash, and empty query parameters; under a provider it returns the value
    of the nearest one. *)
Theorem useStreamlitAppUrl_default :
  AppUrlContext.useStreamlitAppUrl []
  = {| AppUrlContext.appPages := [];
       AppUrlContext.currentPageScriptHash := "";
       AppUrlContext.queryParams := [] |}
  /\ AppUrlContext.appPages (AppUrlContext.useStreamlitAppUrl []) = []
  /\ AppUrlContext.currentPageScriptHash (AppUrlContext.useStreamlitAppUrl []) = ""
  /\ AppUrlContext.queryParams (AppUrlContext.useStreamlitAppUrl []) = []
  /\ forall value outer,
       AppUrlContext.useStreamlitAppUrl (value :: outer) = value.
Proof. repeat split. Qed.

(** C2: in every world reached from an initial one in which AppView is
    mounted, a hashchange event succeeds and makes AppView call
    [sendMessageToHost] exactly once, with the message
    [{ type: "UPDATE_HASH", hash: h }] where [h] is [window.location.hash]
    at that moment; and every message AppView has ever sent has that
    shape. *)
Theorem hashchange_sends_one_UPDATE_HASH w0 evs w f :
  initial w0 = true ->
  run evs w0 = inr w ->
  instance w = Some f ->
  exists w',
    step HashChange w = inr w'
    /\ calls w'
       = (calls w
            ++ [CallSendMessageToHost (sendMessageToHost (memoizedProps f))
                  [("type", "UPDATE_HASH"); ("hash", location_hash w)]])%list
    /\ forall send m,
         In (CallSendMessageToHost send m) (calls w') ->
         exists h, m = [("type", "UPDATE_HASH"); ("hash", h)].
Proof.
  intros Hi Hrun Hf.
  destruct (run_initial_stable w0 evs Hi) as (w1 & Hrun1 & Hs).
  rewrite Hrun in Hrun1. injection Hrun1 as <-.
  destruct (step_HashChange_stable _ _ _ w Hs) as (w' & Hst & Hs' & _ & _ & Hc).
  rewrite Hf in Hc. exists w'. split; [exact Hst|]. split; [exact Hc|].
  intros send m Hin.
  pose proof (stable_calls_ok _ _ _ _ Hs') as Hok.
  rewrite forallb_forall in Hok. specialize (Hok _ Hin).
  apply is_update_hash_spec in Hok. exact Hok.
Qed.

Lemma sample_hashchange_after_navigation :
  exists w',
    step HashChange Sample.w1 = inr w'
    /\ calls w'
       = (calls Sample.w1
            ++ [CallSendMessageToHost 30
                  [("type", "UPDATE_HASH"); ("hash", "#usage")]])%list
    /\ forall send m,
         In (CallSendMessageToHost send m) (calls w') ->
         exists h, m = [("type", "UPDATE_HASH"); ("hash", h)].
Proof.
  refine (hashchange_sends_one_UPDATE_HASH Sample.w0 Sample.events Sample.w1
            Sample.fiber1 _ _ _); reflexivity.
Defined.

(** C4: in every world reached from an initial one, while AppView is
    mounted exactly one window listener and one script-finished handler of
    its own are registered, each was registered by a call AppView made, and
    the cleanup stored for each effect removes that very registration: the
    same listener, event name and capture flag, and the same handler with
    the remove function of the same context. Unmounting calls both cleanups
    and leaves the window's listeners and the host's handlers as they were
    before AppView was mounted. *)
Theorem subscriptions_removed_symmetrically w0 evs w :
  initial w0 = true ->
  run evs w0 = inr w ->
  match instance w with
  | Some f =>
      exists listener handler,
        window_listeners w
        = (window_listeners w0 ++ [hashchange_entry listener])%list
        /\ scriptFinishedHandlers w
           = (scriptFinishedHandlers w0 ++ [handler])%list
        /\ In (CallAddEventListener "hashchange" listener false) (calls w)
        /\ In (CallAddScriptFinishedHandler
                 (addScriptFinishedHandler (memoizedLibContext f)) handler)
              (calls w)
        /\ option_map snd (hashchangeEffect f)
           = Some (RemoveEventListener "hashchange" listener false)
        /\ option_map snd (scriptFinishedEffect f)
           = Some (RemoveScriptFinishedHandler
                     (removeScriptFinishedHandler (memoizedLibContext f)) handler)
        /\ calls (unmount w)
           = (calls w
                ++ [CallRemoveEventListener "hashchange" listener false;
                    CallRemoveScriptFinishedHandler
                      (removeScriptFinishedHandler (memoizedLibContext f))
                      handler])%list
  | None =>
      window_listeners w = window_listeners w0
      /\ scriptFinishedHandlers w = scriptFinishedHandlers w0
  end
  /\ step Unmount w = inr (unmount w)
  /\ instance (unmount w) = None
  /\ window_listeners (unmount w) = window_listeners w0
  /\ scriptFinishedHandlers (unmount w) = scriptFinishedHandlers w0.
Proof.
  intros Hi Hrun.
  destruct (run_initial_stable w0 evs Hi) as (w1 & Hrun1 & Hs).
  rewrite Hrun in Hrun1. injection Hrun1 as <-.
  destruct (step_Unmount_stable _ _ _ w Hs) as (_ & Hn & Hwl & Hsh & _ & Hc).
  split; [|repeat split; assumption].
  destruct Hs as [Hu _ _ _ _ Hl Hh | f l h Hcm _ _].
  - rewrite Hu. auto.
  - rewrite (cm_instance _ _ _ _ _ _ _ _ Hcm) in *.
    destruct Hc as (l' & h' & Hcm' & Hc).
    pose proof Hcm' as [_ _ _ _ _ Cwl Csh _ _ _ _ Cla Cha Ce1 _ _ Ce3 _].
    exists l', h'. rewrite Ce1, Ce3. repeat split; assumption.
Qed.

Lemma sample_unmount_restores_registrations :
  window_listeners (unmount Sample.w1) = window_listeners Sample.w0
  /\ scriptFinishedHandlers (unmount Sample.w1) = scriptFinishedHandlers Sample.w0.
Proof.
  assert (Hi : initial Sample.w0 = true) by reflexivity.
  assert (Hrun : run Sample.events Sample.w0 = inr Sample.w1) by reflexivity.
  destruct (subscriptions_removed_symmetrically Sample.w0 Sample.events
              Sample.w1 Hi Hrun) as (_ & _ & _ & Hl & Hh).
  split; [exact Hl | exact Hh].
Defined.

(** C7: AppView never fails. From any world, and for any props and context
    values of the declared types, every sequence of renders, hash changes,
    script-finished notifications and unmounts runs to completion: no
    render loop reaches React's nested-update limit, and a render loop
    always ends with no update pending, within two passes. *)
Theorem AppView_never_fails :
  (forall evs w, exists w', run evs w = inr w')
  /\ (forall props ctx lctx w,
        exists w',
          render_loop 2 props ctx lctx w = inr w'
          /\ is_pending w' = false /\ is_mounted w' = true)
  /\ (forall props ctx lctx w,
        exists w',
          step (Render props ctx lctx) w = inr w'
          /\ is_pending w' = false /\ is_mounted w' = true).
Proof.
  split; [intros evs w; apply run_total|]. split.
  - intros props ctx lctx w. apply render_loop_total.
  - intros props ctx lctx w. unfold step.
    apply (render_loop_total props ctx lctx w 48).
Qed.

(** C9: the [showSidebarOverride] state is a latch. It starts false. In a
    world reached from an initial one, a render pass sets it (and asks for
    a re-render) exactly when that render has [showSidebar] true,
    [hideSidebarNav] true and the override false, so that a render leaves it
    true if it was, and makes it true exactly when the sidebar is shown with
    [hideSidebarNav] set. Changes of the hash and hashchange events leave it
    alone. The script-finished handler resets it exactly when it is true
    and the committed sidebar region is empty. Hence, once the sidebar is
    shown with [hideSidebarNav] set, it stays shown over every sequence of
    renders, hash changes and script runs that finish with a non-empty
    sidebar region. *)
Theorem showSidebarOverride_is_a_latch w0 evs w :
  initial w0 = true ->
  run evs w0 = inr w ->
  (* it starts false *)
  override_of w0 = false
  /\ (forall props ctx lctx,
        state_showSidebarOverride (initial_fiber props ctx lctx) = false)
  (* one render pass *)
  /\ (forall props ctx lctx,
        exists f,
          instance (render_pass props ctx lctx w) = Some f
          /\ pendingUpdate f = override_cond props (override_of w)
          /\ state_showSidebarOverride f
             = override_of w || override_cond props (override_of w))
  (* a render, up to quiescence *)
  /\ (forall props ctx lctx,
        exists w',
          step (Render props ctx lctx) w = inr w'
          /\ override_of w'
             = override_of w
               || (showSidebar props (override_of w) && hideSidebarNav props))
  (* the hash changes *)
  /\ (forall hash,
        exists w',
          step (Navigate hash) w = inr w' /\ override_of w' = override_of w)
  /\ (exists w',
        step HashChange w = inr w' /\ override_of w' = override_of w)
  (* a script run finishes *)
  /\ (exists w',
        step ScriptFinished w = inr w'
        /\ override_of w' = override_of w && committed_hasSidebar w)
  (* the latch *)
  /\ (sidebar_shown w = true ->
      committed_hideSidebarNav w = true ->
      forall evs',
        keeps_latch_along evs' w = true ->
        exists w', run evs' w = inr w' /\ sidebar_shown w' = true).
Proof.
  intros Hi Hrun.
  destruct (initial_stable w0 Hi) as (_ & Hn0 & _).
  destruct (run_initial_stable w0 evs Hi) as (w1 & Hrun1 & Hs).
  rewrite Hrun in Hrun1. injection Hrun1 as <-.
  set (L := window_listeners w0) in *. set (H := scriptFinishedHandlers w0) in *.
  set (bound := next_id w0) in *.
  split; [unfold override_of; now rewrite Hn0|].
  split; [reflexivity|].
  split.
  { intros p c lc.
    destruct (render_pass_renderable L H bound p c lc w (stable_renderable _ _ _ _ Hs))
      as (f' & l' & h' & Hcm & _ & _ & _ & Hst & Hp & _).
    exists f'. rewrite (cm_instance _ _ _ _ _ _ _ _ Hcm). auto. }
  split.
  { intros p c lc.
    destruct (step_Render_stable L H bound p c lc w Hs)
      as (w' & f' & l' & h' & Hst & _ & Hcm & _ & _ & _ & Ho & _).
    exists w'. split; [exact Hst|].
    unfold override_of at 1. now rewrite (cm_instance _ _ _ _ _ _ _ _ Hcm). }
  split.
  { intros hash. exists (set_location_hash hash w). split; [reflexivity|].
    destruct (step_Navigate_stable L H bound hash w Hs) as (_ & Hi1 & _).
    unfold override_of. now rewrite Hi1. }
  split.
  { destruct (step_HashChange_stable L H bound w Hs) as (w' & Hst & _ & Hi1 & _).
    exists w'. split; [exact Hst|]. unfold override_of. now rewrite Hi1. }
  split.
  { destruct (step_ScriptFinished_stable L H bound w Hs)
      as (w' & Hst & _ & _ & Ho & _).
    exists w'. auto. }
  intros Hshown Hhide evs' Hk.
  rewrite (sidebar_shown_stable _ _ _ _ Hs) in Hshown.
  unfold committed_hideSidebarNav in Hhide.
  assert (Hm : is_mounted w = true /\ override_of w = true).
  { unfold is_mounted, override_of.
    destruct Hs as [Hu _ _ _ _ _ _ | f l h Hcm _ Hoc].
    - rewrite Hu in Hshown. discriminate.
    - rewrite (cm_instance _ _ _ _ _ _ _ _ Hcm) in *. split; [reflexivity|].
      unfold override_cond in Hoc. rewrite Hshown, Hhide in Hoc.
      now apply negb_false_iff in Hoc. }
  destruct Hm as [Hm Ho].
  destruct (latch_holds L H bound evs' w Hs Hm Ho Hk) as (w' & Hr' & Hs' & Hm' & Ho').
  exists w'. split; [exact Hr'|].
  rewrite (sidebar_shown_stable _ _ _ _ Hs').
  unfold is_mounted, override_of in Hm', Ho'.
  destruct (instance w') as [f'|]; [|discriminate].
  rewrite Ho'. unfold showSidebar. apply orb_true_r.
Qed.

Lemma sample_sidebar_stays_shown :
  override_of Sample.w1 = true
  /\ exists w',
       run Sample.later_events Sample.w1 = inr w' /\ sidebar_shown w' = true.
Proof.
  assert (Hi : initial Sample.w0 = true) by reflexivity.
  assert (Hrun : run Sample.events Sample.w0 = inr Sample.w1) by reflexivity.
  destruct (showSidebarOverride_is_a_latch Sample.w0 Sample.events Sample.w1
              Hi Hrun) as (_ & _ & _ & _ & _ & _ & _ & Hlatch).
  split; [reflexivity|].
  apply Hlatch; reflexivity.
Defined.

(* ================================================================== *)
(** ** Further properties                                              *)
(* ================================================================== *)

(* ------------------------------------------------------------------ *)
(** *** Only a hashchange listener sends                               *)

Lemma sent_log c w :
  sent (log c w) = (sent w ++ if is_send c then [c] else [])%list.
Proof.
  destruct w. unfold sent. simpl. rewrite filter_app. simpl.
  destruct (is_send c); reflexivity.
Qed.

Lemma sent_frame w w' : calls w' = calls w -> sent w' = sent w.
Proof. unfold sent. now intros ->. Qed.

Lemma calls_update_fiber g w : calls (update_fiber g w) = calls w.
Proof. unfold update_fiber. destruct w as [? ? ? ? ? [f|]]; reflexivity. Qed.

Lemma sent_setShowSidebarOverride b w :
  sent (setShowSidebarOverride b w) = sent w.
Proof.
  destruct w as [? ? ? ? ? [f|]]; unfold setShowSidebarOverride, sent; simpl.
  - destruct (Bool.eqb _ _); simpl; rewrite filter_app; simpl; apply app_nil_r.
  - rewrite filter_app. simpl. apply app_nil_r.
Qed.

Lemma sent_run_cleanup c w : sent (run_cleanup c w) = sent w.
Proof.
  destruct c, w; unfold sent; simpl; rewrite filter_app; simpl; apply app_nil_r.
Qed.

Lemma sent_cleanup_slot {D} (slot : option (D * Cleanup)) w :
  sent (cleanup_slot slot w) = sent w.
Proof. destruct slot as [[d c]|]; [apply sent_run_cleanup|reflexivity]. Qed.

Lemma sent_hashchange_effect p d w :
  sent (let (w', cleanup) := hashchange_effect p w in
        update_fiber (store_hashchangeEffect (d, cleanup)) w') = sent w.
Proof.
  destruct w as [nid hash wl sh cl inst].
  unfold hashchange_effect, alloc, window_addEventListener. simpl.
  unfold sent. rewrite calls_update_fiber.
  destruct (existsb _ wl); simpl; rewrite filter_app; simpl; apply app_nil_r.
Qed.

Lemma sent_override_effect show hide st d w :
  sent (update_fiber (store_overrideEffect d) (override_effect show hide st w))
  = sent w.
Proof.
  unfold sent at 1. rewrite calls_update_fiber. fold (sent (override_effect show hide st w)).
  unfold override_effect. destruct (show && hide && negb st); [|reflexivity].
  apply sent_setShowSidebarOverride.
Qed.

Lemma sent_scriptFinished_effect lc h d w :
  sent (let (w', cleanup) := scriptFinished_effect lc h w in
        update_fiber (store_scriptFinishedEffect (d, cleanup)) w') = sent w.
Proof.
  destruct w as [nid hash wl sh cl inst]. simpl.
  unfold sent. rewrite calls_update_fiber. simpl.
  rewrite filter_app. simpl. apply app_nil_r.
Qed.

Lemma sent_commit_effects r1 r2 r3 p lc show st h s1 s3 w :
  sent (commit_effects r1 r2 r3 p lc show st h s1 s3 w) = sent w.
Proof.
  unfold commit_effects.
  assert (H1 : sent (if r1 then cleanup_slot s1 w else w) = sent w)
    by (destruct r1; [apply sent_cleanup_slot|reflexivity]).
  revert H1. generalize (if r1 then cleanup_slot s1 w else w). intros w1 H1.
  assert (H2 : sent (if r3 then cleanup_slot s3 w1 else w1) = sent w)
    by (destruct r3; [now rewrite sent_cleanup_slot|exact H1]).
  revert H2. generalize (if r3 then cleanup_slot s3 w1 else w1). intros w2 H2.
  cbv zeta.
  destruct r1, r2, r3;
    rewrite ?sent_scriptFinished_effect, ?sent_override_effect,
      ?sent_hashchange_effect; exact H2.
Qed.

Lemma sent_render_pass p c lc w : sent (render_pass p c lc w) = sent w.
Proof.
  unfold render_pass.
  destruct w as [nid hash wl sh cl [f|]]; cbn [instance alloc];
    rewrite sent_commit_effects; reflexivity.
Qed.

Lemma sent_render_loop fuel p c lc :
  forall w w', render_loop fuel p c lc w = inr w' -> sent w' = sent w.
Proof.
  induction fuel as [|fuel IH]; intros w w' Hr; cbn [render_loop] in Hr.
  - discriminate.
  - destruct (is_pending (render_pass p c lc w)).
    + rewrite (IH _ _ Hr). apply sent_render_pass.
    + injection Hr as <-. apply sent_render_pass.
Qed.

Lemma sent_flush w w' : flush w = inr w' -> sent w' = sent w.
Proof.
  unfold flush. destruct (instance w) as [f|].
  - destruct (pendingUpdate f).
    + apply sent_render_loop.
    + now intros [= <-].
  - now intros [= <-].
Qed.

Lemma sent_unmount w : sent (unmount w) = sent w.
Proof.
  unfold unmount. destruct (instance w) as [f|]; [|reflexivity].
  transitivity (sent (cleanup_slot (scriptFinishedEffect f)
                        (cleanup_slot (hashchangeEffect f) w))).
  - apply sent_frame. now destruct (cleanup_slot _ _).
  - now rewrite !sent_cleanup_slot.
Qed.

(* ------------------------------------------------------------------ *)
(** *** More about each event in a stable world                        *)

Lemma render_loop_two_passes p c lc w n :
  render_loop (S (S n)) p c lc w
  = inr (if is_pending (render_pass p c lc w)
         then render_pass p c lc (render_pass p c lc w)
         else render_pass p c lc w).
Proof.
  cbn [render_loop].
  destruct (is_pending (render_pass p c lc w)) eqn:Ep; [|reflexivity].
  destruct (render_pass_state p c lc w) as (f1 & Hf1 & Hst1).
  unfold is_pending in Ep. rewrite Hf1 in Ep.
  destruct Hst1 as [[_ ?]|(_ & Hs1 & _)]; [congruence|].
  destruct (render_pass_state p c lc (render_pass p c lc w)) as (f2 & Hf2 & Hst2).
  unfold override_of in Hst2. rewrite Hf1, Hs1 in Hst2.
  destruct Hst2 as [[_ Hp2]|(? & _)]; [|discriminate].
  unfold is_pending. now rewrite Hf2, Hp2.
Qed.

Section MoreSteps.
Variable L : list EventListener.
Variable H : list Fn.
Variable bound : nat.

Lemma notify_stable w :
  stable L H bound w ->
  notify_scriptFinished w
  = if negb (committed_hasSidebar w) && override_of w
    then setShowSidebarOverride false w
    else w.
Proof.
  intros [Hi _ _ HfH _ _ Hsh | f l h Hcm _ _]; unfold notify_scriptFinished.
  - rewrite Hsh, (notify_foreign bound) by assumption.
    unfold override_of. rewrite Hi. now rewrite andb_false_r.
  - pose proof Hcm as [Ci _ _ CfH _ _ Csh _ _ _ Chc _ _ _ _ _ _ _].
    rewrite Csh, fold_left_app, (notify_foreign bound H) by assumption.
    cbn [fold_left]. unfold invoke, committed_hasSidebar, override_of.
    now rewrite Chc, Ci.
Qed.

(** What an event adds to the messages sent, and whether AppView is
    mounted after it. *)
Lemma step_sent e w w' :
  stable L H bound w ->
  step e w = inr w' ->
  sent w'
  = (sent w
       ++ match e, instance w with
          | HashChange, Some f =>
              [CallSendMessageToHost (sendMessageToHost (memoizedProps f))
                 (update_hash_message (location_hash w))]
          | _, _ => []
          end)%list
  /\ is_mounted w'
     = match e with
       | Render _ _ _ => true
       | Unmount => false
       | _ => is_mounted w
       end.
Proof.
  intros Hs Hstep. destruct e as [p c lc | hash | | | ].
  - destruct (step_Render_stable L H bound p c lc w Hs)
      as (w1 & f1 & l1 & h1 & Hst & _ & Hcm & _).
    rewrite Hstep in Hst. injection Hst as <-.
    unfold step in Hstep. rewrite (sent_render_loop _ _ _ _ _ _ Hstep), app_nil_r.
    split; [reflexivity|]. unfold is_mounted.
    now rewrite (cm_instance _ _ _ _ _ _ _ _ Hcm).
  - injection Hstep as <-. rewrite app_nil_r. destruct w; split; reflexivity.
  - destruct (step_HashChange_stable L H bound w Hs) as (w1 & Hst & _ & Hi & _ & Hc).
    rewrite Hstep in Hst. injection Hst as <-.
    unfold is_mounted. rewrite Hi. split; [|reflexivity].
    unfold sent. rewrite Hc, filter_app.
    destruct (instance w); reflexivity.
  - destruct (step_ScriptFinished_stable L H bound w Hs) as (w1 & Hst & _ & Hm & _).
    rewrite Hstep in Hst. injection Hst as <-.
    split; [|exact Hm]. unfold step in Hstep.
    rewrite (sent_flush _ _ Hstep), (notify_stable w Hs), app_nil_r.
    destruct (_ && _); [apply sent_setShowSidebarOverride|reflexivity].
  - injection Hstep as <-. rewrite sent_unmount, app_nil_r.
    split; [reflexivity|].
    destruct (step_Unmount_stable L H bound w Hs) as (_ & Hn & _).
    unfold is_mounted. now rewrite Hn.
Qed.

(** A script-finished notification keeps the committed props and
    contexts. *)
Lemma step_ScriptFinished_props w f :
  stable L H bound w ->
  instance w = Some f ->
  exists w' f',
    step ScriptFinished w = inr w'
    /\ stable L H bound w'
    /\ instance w' = Some f'
    /\ memoizedProps f' = memoizedProps f
    /\ memoizedAppContext f' = memoizedAppContext f
    /\ memoizedLibContext f' = memoizedLibContext f
    /\ state_showSidebarOverride f'
       = state_showSidebarOverride f && hasSidebarElements (memoizedProps f)
    /\ (negb (hasSidebarElements (memoizedProps f))
        && state_showSidebarOverride f = false -> w' = w).
Proof.
  intros Hs Hf. pose proof Hs as Hs0.
  destruct Hs as [Hi _ _ _ _ _ _ | f0 l h Hcm Hp Hoc]; [congruence|].
  pose proof (cm_instance _ _ _ _ _ _ _ _ Hcm) as Ci.
  rewrite Hf in Ci. injection Ci as <-.
  unfold step. rewrite (notify_stable w Hs0).
  unfold committed_hasSidebar, override_of. rewrite Hf.
  destruct (negb (hasSidebarElements (memoizedProps f))
            && state_showSidebarOverride f) eqn:Efire.
  - apply andb_true_iff in Efire as [Ehs Est].
    apply negb_true_iff in Ehs. rewrite Est in *. rewrite Ehs.
    destruct (committed_setShowSidebarOverride_false L H bound w f l h Hcm Est)
      as (Hcm1 & Hi1 & Hh1).
    unfold flush. rewrite Hi1.
    replace (pendingUpdate (store_state false f)) with true
      by (destruct f; reflexivity).
    destruct (render_loop_stable L H bound
                (memoizedProps (store_state false f))
                (memoizedAppContext (store_state false f))
                (memoizedLibContext (store_state false f))
                (setShowSidebarOverride false w) 48)
      as (w' & f' & l' & h' & Hrun & Hs' & Hcm' & Hp' & Hc' & Hl' & Hst' & _).
    { right. exists (store_state false f), true, l, h.
      split; [exact Hcm1|]. rewrite override_cond_override. discriminate. }
    exists w', f'. split; [exact Hrun|]. split; [exact Hs'|].
    split; [exact (cm_instance _ _ _ _ _ _ _ _ Hcm')|].
    rewrite Hp', Hc', Hl', Hst'. unfold override_of. rewrite Hi1.
    destruct f as [mp mc ml st pend e1 e2 cb e3 rd]. cbn in *.
    repeat (split; [reflexivity|]). split; [|discriminate].
    unfold showSidebar. rewrite Ehs. cbn.
    destruct (hideSidebarNav mp); cbn; [reflexivity | apply andb_false_r].
  - exists w, f. rewrite flush_idle by (unfold is_pending; now rewrite Hf).
    repeat (split; [first [reflexivity | assumption]|]).
    split; [|reflexivity].
    destruct (hasSidebarElements (memoizedProps f)),
             (state_showSidebarOverride f); simpl in *; congruence.
Qed.
(** Where the hash and the committed [sendMessageToHost] are after an
    event. *)
Lemma step_hash_and_send e w w' :
  stable L H bound w ->
  step e w = inr w' ->
  location_hash w'
  = match e with
    | Navigate hash => hash
    | _ => location_hash w
    end
  /\ current_send w'
     = match e with
       | Render p _ _ => Some (sendMessageToHost p)
       | Unmount => None
       | _ => current_send w
       end.
Proof.
  intros Hs Hstep. unfold current_send. destruct e as [p c lc | hash | | | ].
  - destruct (step_Render_stable L H bound p c lc w Hs)
      as (w1 & f1 & l1 & h1 & Hst & _ & Hcm & Hp & _ & _ & _ & Hh).
    rewrite Hstep in Hst. injection Hst as <-. clear Hstep.
    rewrite (cm_instance _ _ _ _ _ _ _ _ Hcm), Hp.
    split; [exact Hh | reflexivity].
  - injection Hstep as <-. destruct w; split; reflexivity.
  - destruct (step_HashChange_stable L H bound w Hs) as (w1 & Hst & _ & Hi & Hh & _).
    rewrite Hstep in Hst. injection Hst as <-. clear Hstep.
    rewrite Hi. split; [exact Hh | reflexivity].
  - destruct (step_ScriptFinished_stable L H bound w Hs)
      as (w1 & Hst & _ & _ & _ & Hh).
    rewrite Hstep in Hst. injection Hst as <-. split; [exact Hh|].
    destruct (instance w) as [f|] eqn:Hf.
    + destruct (step_ScriptFinished_props w f Hs Hf)
        as (w2 & f2 & Hst2 & _ & Hf2 & Hp2 & _).
      rewrite Hstep in Hst2. injection Hst2 as <-. clear Hstep.
      rewrite Hf2, Hp2. reflexivity.
    + destruct Hs as [_ _ _ HfH _ _ Hsh | f0 l h Hcm _ _];
        [|rewrite (cm_instance _ _ _ _ _ _ _ _ Hcm) in Hf; discriminate].
      unfold step, notify_scriptFinished in Hstep.
      rewrite Hsh, (notify_foreign bound) in Hstep by assumption.
      rewrite flush_idle in Hstep by (unfold is_pending; now rewrite Hf).
      injection Hstep as <-. rewrite Hf. reflexivity.
  - injection Hstep as <-.
    destruct (step_Unmount_stable L H bound w Hs) as (_ & Hn & _ & _ & Hh & _).
    rewrite Hn. split; [exact Hh | reflexivity].
Qed.

Lemma run_sent evs :
  forall w w',
    stable L H bound w ->
    run evs w = inr w' ->
    sent w' = (sent w ++ messages (location_hash w) (current_send w) evs)%list.
Proof.
  induction evs as [|e evs IH]; intros w w' Hs Hrun; cbn [run] in Hrun.
  - injection Hrun as <-. cbn. now rewrite app_nil_r.
  - destruct (step_stable L H bound e w Hs) as (w1 & Hstep & Hs1).
    rewrite Hstep in Hrun.
    destruct (step_sent e w w1 Hs Hstep) as (Hsent & _).
    destruct (step_hash_and_send e w w1 Hs Hstep) as (Hh & Hsend).
    rewrite (IH _ _ Hs1 Hrun), Hsent, Hh, Hsend, <- app_assoc.
    f_equal. unfold current_send.
    destruct e as [p c lc | hash | | | ]; cbn [messages];
      destruct (instance w); reflexivity.
Qed.
End MoreSteps.

(* ------------------------------------------------------------------ *)
(** *** Renders that change nothing, or not the listener               *)

Lemma window_listeners_update_fiber g w :
  window_listeners (update_fiber g w) = window_listeners w.
Proof. unfold update_fiber. destruct w as [? ? ? ? ? [f|]]; reflexivity. Qed.

Lemma window_listeners_override_effect show hide st w :
  window_listeners (override_effect show hide st w) = window_listeners w.
Proof.
  unfold override_effect, setShowSidebarOverride.
  destruct (show && hide && negb st); [|reflexivity].
  destruct w as [? ? ? ? ? [f|]]; simpl; [destruct (Bool.eqb _ _)|]; reflexivity.
Qed.

Lemma window_listeners_scriptFinished_effect lc h d w :
  window_listeners
    (let (w', cleanup) := scriptFinished_effect lc h w in
     update_fiber (store_scriptFinishedEffect (d, cleanup)) w')
  = window_listeners w.
Proof.
  cbn. rewrite window_listeners_update_fiber. now destruct w.
Qed.

(** When the first effect does not run, a commit leaves the window's
    listeners as the cleanup of the third effect left them. *)
Lemma window_listeners_commit_effects r2 r3 p lc show st h s1 s3 w :
  window_listeners (commit_effects false r2 r3 p lc show st h s1 s3 w)
  = window_listeners (if r3 then cleanup_slot s3 w else w).
Proof.
  unfold commit_effects. cbv zeta.
  generalize (if r3 then cleanup_slot s3 w else w). intros w2.
  destruct r2, r3;
    rewrite ?window_listeners_scriptFinished_effect,
      ?window_listeners_update_fiber, ?window_listeners_override_effect;
    reflexivity.
Qed.

Section SameListener.
Variable L : list EventListener.
Variable H : list Fn.
Variable bound : nat.

Lemma render_pass_keeps_listener p c lc w f co l h :
  committed L H bound w f co l h ->
  sendMessageToHost p = sendMessageToHost (memoizedProps f) ->
  window_listeners (render_pass p c lc w) = window_listeners w.
Proof.
  intros [Hi _ _ _ _ _ _ _ _ _ _ _ _ He1 _ _ He3 _] Hsend.
  destruct w as [nid hash wl sh cl inst]. simpl in *. subst inst.
  destruct f as [mp mc ml st pend e1 e2 cb e3 rd]. simpl in *. subst e1 e3.
  unfold render_pass.
  cbn -[commit_effects AppView_render showSidebar hasSidebarElements
        Nat.eqb Bool.eqb useCallback].
  rewrite Hsend, Nat.eqb_refl. cbn [negb].
  rewrite window_listeners_commit_effects.
  destruct (negb _); reflexivity.
Qed.

Lemma step_Render_keeps_listener p c lc w f w' :
  stable L H bound w ->
  instance w = Some f ->
  sendMessageToHost p = sendMessageToHost (memoizedProps f) ->
  step (Render p c lc) w = inr w' ->
  window_listeners w' = window_listeners w.
Proof.
  intros Hs Hf Hsend Hstep.
  unfold step in Hstep. change NESTED_UPDATE_LIMIT with (S (S 48)) in Hstep.
  rewrite render_loop_two_passes in Hstep. injection Hstep as <-.
  destruct (render_pass_renderable L H bound p c lc w (stable_renderable _ _ _ _ Hs))
    as (f1 & l1 & h1 & Hcm1 & Hp1 & _).
  assert (H1 : window_listeners (render_pass p c lc w) = window_listeners w).
  { destruct Hs as [Hi _ _ _ _ _ _ | f0 l h Hcm _ _]; [congruence|].
    eapply render_pass_keeps_listener; [exact Hcm|].
    rewrite (cm_instance _ _ _ _ _ _ _ _ Hcm) in Hf. now injection Hf as ->. }
  destruct (is_pending _); [|exact H1].
  rewrite <- H1. eapply render_pass_keeps_listener; [exact Hcm1|].
  now rewrite Hp1.
Qed.

(** Rendering again with the committed props and contexts runs no effect:
    only a function object is allocated and dropped. *)
Lemma step_Render_same w f :
  stable L H bound w ->
  instance w = Some f ->
  exists w',
    step (Render (memoizedProps f) (memoizedAppContext f) (memoizedLibContext f)) w
    = inr w'
    /\ instance w' = Some f
    /\ calls w' = calls w
    /\ window_listeners w' = window_listeners w
    /\ scriptFinishedHandlers w' = scriptFinishedHandlers w
    /\ location_hash w' = location_hash w.
Proof.
  intros Hs Hf.
  destruct Hs as [Hi _ _ _ _ _ _ | f0 l h Hcm Hp Hoc]; [congruence|].
  pose proof Hcm as [Ci _ _ _ _ _ _ _ _ _ _ _ _ He1 He2 Hcb He3 Hr].
  rewrite Hf in Ci. injection Ci as <-.
  unfold step. change NESTED_UPDATE_LIMIT with (S (S 48)).
  rewrite render_loop_two_passes.
  destruct w as [nid hash wl sh cl inst]. simpl in Hf. subst inst.
  destruct f as [mp mc ml st pend e1 e2 cb e3 rd]. simpl in *. subst e1 e2 cb e3 rd pend.
  assert (Hpass :
    render_pass mp mc ml
      {| next_id := nid; location_hash := hash; window_listeners := wl;
         scriptFinishedHandlers := sh; calls := cl;
         instance :=
           Some {| memoizedProps := mp; memoizedAppContext := mc;
                   memoizedLibContext := ml; state_showSidebarOverride := st;
                   pendingUpdate := false;
                   hashchangeEffect :=
                     Some (sendMessageToHost mp,
                           RemoveEventListener "hashchange" l false);
                   overrideEffect :=
                     Some (showSidebar mp st, hideSidebarNav mp, st);
                   scriptFinishedCallback :=
                     Some (h, (hasSidebarElements mp, st));
                   scriptFinishedEffect :=
                     Some (h, addScriptFinishedHandler ml,
                           removeScriptFinishedHandler ml,
                           RemoveScriptFinishedHandler
                             (removeScriptFinishedHandler ml) h);
                   rendered := AppView_render mc mp st |} |}
    = {| next_id := S nid; location_hash := hash; window_listeners := wl;
         scriptFinishedHandlers := sh; calls := cl;
         instance :=
           Some {| memoizedProps := mp; memoizedAppContext := mc;
                   memoizedLibContext := ml; state_showSidebarOverride := st;
                   pendingUpdate := false;
                   hashchangeEffect :=
                     Some (sendMessageToHost mp,
                           RemoveEventListener "hashchange" l false);
                   overrideEffect :=
                     Some (showSidebar mp st, hideSidebarNav mp, st);
                   scriptFinishedCallback :=
                     Some (h, (hasSidebarElements mp, st));
                   scriptFinishedEffect :=
                     Some (h, addScriptFinishedHandler ml,
                           removeScriptFinishedHandler ml,
                           RemoveScriptFinishedHandler
                             (removeScriptFinishedHandler ml) h);
                   rendered := AppView_render mc mp st |} |}).
  { unfold render_pass.
    cbn -[commit_effects AppView_render showSidebar hasSidebarElements
          Nat.eqb Bool.eqb].
    rewrite !eqb_reflx, !Nat.eqb_refl. cbn [andb negb].
    unfold same_fn. rewrite Nat.eqb_refl. cbn [andb negb].
    reflexivity. }
  rewrite Hpass. cbn [is_pending instance pendingUpdate].
  eexists. repeat split.
Qed.

Lemma step_unmounted_noop w :
  stable L H bound w ->
  instance w = None ->
  step HashChange w = inr w /\ step ScriptFinished w = inr w.
Proof.
  intros Hs Hi.
  destruct Hs as [_ _ HfL HfH _ Hwl Hsh | f l h Hcm _ _];
    [|rewrite (cm_instance _ _ _ _ _ _ _ _ Hcm) in Hi; discriminate].
  unfold step, dispatch, notify_scriptFinished.
  rewrite Hwl, Hsh, (dispatch_foreign bound), (notify_foreign bound) by assumption.
  rewrite flush_idle by (unfold is_pending; now rewrite Hi). auto.
Qed.

Lemma dispatch_other_type type w :
  stable L H bound w ->
  type <> "hashchange" ->
  dispatch type w = w.
Proof.
  intros Hs Ht. unfold dispatch.
  destruct Hs as [_ _ HfL _ _ Hwl _ | f l h Hcm _ _].
  - rewrite Hwl. now apply (dispatch_foreign bound).
  - pose proof Hcm as [_ _ CfL _ _ Cwl _ _ _ _ _ _ _ _ _ _ _ _].
    rewrite Cwl, fold_left_app, (dispatch_foreign bound _ L) by assumption.
    cbn [fold_left hashchange_entry ev_type].
    destruct (String.eqb_spec "hashchange" type); [congruence|reflexivity].
Qed.
End SameListener.

Lemma showSidebar_after_override_effect p o :
  showSidebar p (o || (showSidebar p o && hideSidebarNav p)) = showSidebar p o.
Proof.
  unfold showSidebar.
  destruct (hasSidebarElements p), (hideSidebarNav p),
    (1 <? length (appPages p))%nat, o; reflexivity.
Qed.

(* ------------------------------------------------------------------ *)
(** *** The tree as a whole                                            *)

(** X1: every block container of the tree is told the truth about the
    layout around it: its [hasSidebar] prop says whether the sidebar is
    rendered, and its [addPaddingForChatInput] prop says whether the main
    region is the scroll-anchored container. There is one block container
    for the main region, one more when the sidebar is shown and one more
    when there are event elements. *)
Theorem block_containers_agree_with_tree ctx props showSidebarOverride :
  let tree := AppView_render ctx props showSidebarOverride in
  Forall
    (fun n =>
       prop "hasSidebar" n = Some (VBool (renders ThemedSidebar tree))
       /\ prop "addPaddingForChatInput" n
          = Some (VBool (renders ScrollToBottomContainer tree)))
    (occurrences StyledAppViewBlockContainer tree)
  /\ length (occurrences StyledAppViewBlockContainer tree)
     = (if showSidebar props showSidebarOverride then 1 else 0) + 1
       + (if BlockNode.isEmpty (AppRoot.event (elements props)) then 0 else 1).
Proof.
  cbv zeta. unfold AppView_render, Component, hasEventElements, renderBlock.
  destruct (showSidebar props showSidebarOverride), (containsChatInput props),
    (BlockNode.isEmpty (AppRoot.event (elements props)));
    split; try reflexivity; cbn; repeat constructor.
Qed.

(** X2: the outer container always has three children; the regions are
    rendered in the order sidebar, main, event; the main region is always
    rendered, even when it is empty; only the block of the event region is
    rendered with [events] set. *)
Theorem regions_rendered_in_order ctx props showSidebarOverride :
  let tree := AppView_render ctx props showSidebarOverride in
  let regions :=
    ((if showSidebar props showSidebarOverride
      then [(AppRoot.sidebar (elements props), false)] else [])
       ++ [(AppRoot.main (elements props), false)]
       ++ (if BlockNode.isEmpty (AppRoot.event (elements props))
           then [] else [(AppRoot.event (elements props), true)]))%list in
  length (children_of tree) = 3
  /\ map block_node (occurrences VerticalBlock tree)
     = map (fun r => Some (fst r)) regions
  /\ map (prop "events") (occurrences StyledAppViewBlockContainer tree)
     = map (fun r => Some (VBool (snd r))) regions.
Proof.
  cbv zeta. unfold AppView_render, Component, hasEventElements, renderBlock.
  destruct (showSidebar props showSidebarOverride), (containsChatInput props),
    (BlockNode.isEmpty (AppRoot.event (elements props))); repeat split.
Qed.

(* ------------------------------------------------------------------ *)
(** *** AppView over time                                              *)



(** X4: rendering again with the props and contexts of the last render
    runs no effect: AppView makes no call, nothing is registered or
    removed, and its hook slots are unchanged. *)
Theorem rerender_with_committed_inputs_runs_no_effect w0 evs w f :
  initial w0 = true ->
  run evs w0 = inr w ->
  instance w = Some f ->
  exists w',
    step (Render (memoizedProps f) (memoizedAppContext f) (memoizedLibContext f)) w
    = inr w'
    /\ instance w' = Some f
    /\ calls w' = calls w
    /\ window_listeners w' = window_listeners w
    /\ scriptFinishedHandlers w' = scriptFinishedHandlers w
    /\ location_hash w' = location_hash w.
Proof.
  intros Hi Hrun Hf.
  destruct (run_initial_stable w0 evs Hi) as (w1 & Hrun1 & Hs).
  rewrite Hrun in Hrun1. injection Hrun1 as <-.
  eapply step_Render_same; eassumption.
Qed.

Lemma sample_rerender_runs_no_effect :
  exists w',
    step (Render (Sample.props true [Sample.page "a"] true 30) Sample.ctx
            Sample.lctx) Sample.w1 = inr w'
    /\ instance w' = Some Sample.fiber1
    /\ calls w' = calls Sample.w1
    /\ window_listeners w' = window_listeners Sample.w1
    /\ scriptFinishedHandlers w' = scriptFinishedHandlers Sample.w1
    /\ location_hash w' = location_hash Sample.w1.
Proof.
  refine (rerender_with_committed_inputs_runs_no_effect Sample.w0 Sample.events
            Sample.w1 Sample.fiber1 _ _ _); reflexivity.
Defined.

(** X5: after a render, the hashchange listener captures the
    [sendMessageToHost] of that render. While the prop is the same function
    the registered listener is kept; when it is another function, the
    listener registered afterwards is not one that was registered before. *)
Theorem hashchange_listener_follows_sendMessageToHost w0 evs w f props ctx lctx :
  initial w0 = true ->
  run evs w0 = inr w ->
  instance w = Some f ->
  exists w' listener,
    step (Render props ctx lctx) w = inr w'
    /\ window_listeners w'
       = (window_listeners w0 ++ [hashchange_entry listener])%list
    /\ fn_code listener = HashChangeListener (sendMessageToHost props)
    /\ (sendMessageToHost props = sendMessageToHost (memoizedProps f) ->
        window_listeners w' = window_listeners w)
    /\ (sendMessageToHost props <> sendMessageToHost (memoizedProps f) ->
        ~ In (hashchange_entry listener) (window_listeners w)).
Proof.
  intros Hi Hrun Hf.
  destruct (run_initial_stable w0 evs Hi) as (w1 & Hrun1 & Hs).
  rewrite Hrun in Hrun1. injection Hrun1 as <-.
  destruct (step_Render_stable _ _ _ props ctx lctx w Hs)
    as (w' & f' & l' & h' & Hstep & _ & Hcm' & Hp' & _).
  pose proof Hcm' as [_ _ _ _ _ Cwl' _ _ _ Clc' _ _ _ _ _ _ _ _].
  rewrite Hp' in Clc'.
  exists w', l'. split; [exact Hstep|]. split; [exact Cwl'|]. split; [exact Clc'|].
  split.
  - intros Hsend. eapply step_Render_keeps_listener; eassumption.
  - intros Hsend Hin.
    destruct Hs as [Hn _ _ _ _ _ _ | f0 l h Hcm _ _]; [congruence|].
    pose proof Hcm as [Ci _ CfL _ _ Cwl _ _ _ Clc _ _ _ _ _ _ _ _].
    rewrite Hf in Ci. injection Ci as <-.
    rewrite Cwl in Hin. apply in_app_or in Hin as [Hin|[Heq|[]]].
    + rewrite Forall_forall in CfL. destruct (CfL _ Hin) as [_ Hext].
      cbn in Hext. congruence.
    + injection Heq as ->. congruence.
Qed.

Lemma sample_listener_replaced :
  exists w' listener,
    step (Render (Sample.props true [Sample.page "a"] true 31) Sample.ctx
            Sample.lctx) Sample.w1 = inr w'
    /\ window_listeners w'
       = (window_listeners Sample.w0 ++ [hashchange_entry listener])%list
    /\ fn_code listener = HashChangeListener 31
    /\ ~ In (hashchange_entry listener) (window_listeners Sample.w1).
Proof.
  assert (Hi : initial Sample.w0 = true) by reflexivity.
  assert (Hrun : run Sample.events Sample.w0 = inr Sample.w1) by reflexivity.
  assert (Hf : instance Sample.w1 = Some Sample.fiber1) by reflexivity.
  destruct (hashchange_listener_follows_sendMessageToHost Sample.w0
              Sample.events Sample.w1 Sample.fiber1
              (Sample.props true [Sample.page "a"] true 31) Sample.ctx
              Sample.lctx Hi Hrun Hf)
    as (w' & l & Hstep & Hwl & Hlc & _ & Hnew).
  exists w', l. repeat split; try assumption.
  apply Hnew. cbn. discriminate.
Defined.

(** X6: after unmount AppView reacts to nothing: a hashchange event and a
    script-finished notification leave the world as it is, and unmounting
    itself sends no message. *)
Theorem no_reaction_after_unmount w0 evs w :
  initial w0 = true ->
  run evs w0 = inr w ->
  step HashChange (unmount w) = inr (unmount w)
  /\ step ScriptFinished (unmount w) = inr (unmount w)
  /\ sent (unmount w) = sent w.
Proof.
  intros Hi Hrun.
  destruct (run_initial_stable w0 evs Hi) as (w1 & Hrun1 & Hs).
  rewrite Hrun in Hrun1. injection Hrun1 as <-.
  destruct (step_Unmount_stable _ _ _ w Hs) as (Hs' & Hn & _).
  destruct (step_unmounted_noop _ _ _ _ Hs' Hn) as [Hh Hf].
  split; [exact Hh|]. split; [exact Hf|]. apply sent_unmount.
Qed.

Lemma sample_no_reaction_after_unmount :
  step HashChange (unmount Sample.w1) = inr (unmount Sample.w1)
  /\ step ScriptFinished (unmount Sample.w1) = inr (unmount Sample.w1)
  /\ sent (unmount Sample.w1) = sent Sample.w1.
Proof.
  refine (no_reaction_after_unmount Sample.w0 Sample.events Sample.w1 _ _);
    reflexivity.
Defined.

(** X7: whether the sidebar is on screen after a render is decided by the
    props and the override the render started with: the re-render that the
    override effect asks for never changes it. On mount the override ends
    up set exactly when the sidebar region is non-empty and
    [hideSidebarNav] is set, and the sidebar is shown exactly when the
    region is non-empty or the navigation is not hidden and there is more
    than one page. *)
Theorem override_rerender_never_changes_sidebar w0 evs w props ctx lctx :
  initial w0 = true ->
  run evs w0 = inr w ->
  exists w',
    step (Render props ctx lctx) w = inr w'
    /\ sidebar_shown w' = showSidebar props (override_of w)
    /\ override_of w'
       = override_of w
         || (showSidebar props (override_of w) && hideSidebarNav props)
    /\ (instance w = None ->
        override_of w' = hasSidebarElements props && hideSidebarNav props
        /\ sidebar_shown w'
           = hasSidebarElements props
             || (negb (hideSidebarNav props)
                 && (1 <? length (appPages props))%nat)).
Proof.
  intros Hi Hrun.
  destruct (run_initial_stable w0 evs Hi) as (w1 & Hrun1 & Hs).
  rewrite Hrun in Hrun1. injection Hrun1 as <-.
  destruct (step_Render_stable _ _ _ props ctx lctx w Hs)
    as (w' & f' & l' & h' & Hstep & Hs' & Hcm' & Hp' & _ & _ & Hst & _).
  assert (Ho : override_of w'
               = override_of w
                 || (showSidebar props (override_of w) && hideSidebarNav props)).
  { unfold override_of at 1. now rewrite (cm_instance _ _ _ _ _ _ _ _ Hcm'). }
  assert (Hshown : sidebar_shown w' = showSidebar props (override_of w)).
  { rewrite (sidebar_shown_stable _ _ _ _ Hs'),
      (cm_instance _ _ _ _ _ _ _ _ Hcm'), Hp', Hst.
    apply showSidebar_after_override_effect. }
  exists w'. split; [exact Hstep|]. split; [exact Hshown|]. split; [exact Ho|].
  intros Hn. rewrite Ho, Hshown. unfold override_of. rewrite Hn.
  unfold showSidebar.
  destruct (hasSidebarElements props), (hideSidebarNav props),
    (1 <? length (appPages props))%nat; split; reflexivity.
Qed.

Lemma sample_mount_shows_sidebar :
  exists w',
    step (Render (Sample.props false [Sample.page "a"] true 30) Sample.ctx
            Sample.lctx) Sample.w0 = inr w'
    /\ sidebar_shown w' = true
    /\ override_of w' = true.
Proof.
  assert (Hi : initial Sample.w0 = true) by reflexivity.
  assert (Hrun : run [] Sample.w0 = inr Sample.w0) by reflexivity.
  destruct (override_rerender_never_changes_sidebar Sample.w0 [] Sample.w0
              (Sample.props false [Sample.page "a"] true 30) Sample.ctx
              Sample.lctx Hi Hrun)
    as (w' & Hstep & Hshown & Ho & _).
  exists w'. repeat split; assumption.
Defined.

(** X8: AppView sends messages on hashchange events only. After any
    sequence of events from an initial world, the messages sent are, in
    order, one for each hashchange event that found AppView mounted, each
    carrying the hash of that moment and sent with the [sendMessageToHost]
    of the last render before it. *)
Theorem sent_messages_follow_hashchanges w0 evs w :
  initial w0 = true ->
  run evs w0 = inr w ->
  sent w = messages (location_hash w0) None evs.
Proof.
  intros Hi Hrun.
  destruct (initial_stable w0 Hi) as (Hs & Hn & Hc).
  rewrite (run_sent _ _ _ evs w0 w Hs Hrun).
  unfold sent, current_send. now rewrite Hc, Hn.
Qed.

Lemma sample_messages_sent :
  sent Sample.w1
  = [CallSendMessageToHost 30 [("type", "UPDATE_HASH"); ("hash", "#usage")]].
Proof.
  refine (sent_messages_follow_hashchanges Sample.w0 Sample.events Sample.w1
            _ _); reflexivity.
Defined.

(** X9: after a script-finished notification the props and contexts are
    the committed ones, the override survives only over a non-empty sidebar
    region, and so the sidebar is on screen exactly when the sidebar region
    is non-empty, or the navigation is not hidden and there is more than
    one page: a sidebar kept only by the override is gone. *)
Theorem script_finished_drops_override_only_sidebar w0 evs w f :
  initial w0 = true ->
  run evs w0 = inr w ->
  instance w = Some f ->
  exists w' f',
    step ScriptFinished w = inr w'
    /\ instance w' = Some f'
    /\ memoizedProps f' = memoizedProps f
    /\ memoizedAppContext f' = memoizedAppContext f
    /\ memoizedLibContext f' = memoizedLibContext f
    /\ state_showSidebarOverride f'
       = state_showSidebarOverride f && hasSidebarElements (memoizedProps f)
    /\ sidebar_shown w'
       = hasSidebarElements (memoizedProps f)
         || (negb (hideSidebarNav (memoizedProps f))
             && (1 <? length (appPages (memoizedProps f)))%nat).
Proof.
  intros Hi Hrun Hf.
  destruct (run_initial_stable w0 evs Hi) as (w1 & Hrun1 & Hs).
  rewrite Hrun in Hrun1. injection Hrun1 as <-.
  destruct (step_ScriptFinished_props _ _ _ w f Hs Hf)
    as (w' & f' & Hstep & Hs' & Hf' & Hp & Hc & Hl & Hst & _).
  exists w', f'. repeat (split; [assumption|]).
  rewrite (sidebar_shown_stable _ _ _ _ Hs'), Hf', Hp, Hst.
  unfold showSidebar.
  destruct (hasSidebarElements (memoizedProps f)),
    (state_showSidebarOverride f); cbn;
    rewrite ?orb_false_r; reflexivity.
Qed.

Lemma sample_script_finished_hides_sidebar :
  sidebar_shown Sample.w1 = true
  /\ exists w' f',
       step ScriptFinished Sample.w1 = inr w'
       /\ instance w' = Some f'
       /\ state_showSidebarOverride f' = false
       /\ sidebar_shown w' = false.
Proof.
  split; [reflexivity|].
  assert (Hi : initial Sample.w0 = true) by reflexivity.
  assert (Hrun : run Sample.events Sample.w0 = inr Sample.w1) by reflexivity.
  assert (Hf : instance Sample.w1 = Some Sample.fiber1) by reflexivity.
  destruct (script_finished_drops_override_only_sidebar Sample.w0 Sample.events
              Sample.w1 Sample.fiber1 Hi Hrun Hf)
    as (w' & f' & Hstep & Hf' & _ & _ & _ & Hst & Hshown).
  exists w', f'. repeat split; assumption.
Defined.

(** X10: between events, a set override means the sidebar is on screen;
    and a sidebar that is on screen while [hideSidebarNav] is set means the
    override is set. *)
Theorem override_and_sidebar_between_events w0 evs w :
  initial w0 = true ->
  run evs w0 = inr w ->
  (override_of w = true -> sidebar_shown w = true)
  /\ (committed_hideSidebarNav w = true ->
      sidebar_shown w = override_of w).
Proof.
  intros Hi Hrun.
  destruct (run_initial_stable w0 evs Hi) as (w1 & Hrun1 & Hs).
  rewrite Hrun in Hrun1. injection Hrun1 as <-.
  rewrite (sidebar_shown_stable _ _ _ _ Hs).
  unfold override_of, committed_hideSidebarNav.
  destruct Hs as [Hn _ _ _ _ _ _ | f l h Hcm _ Hoc].
  - rewrite Hn. split; intros; congruence.
  - rewrite (cm_instance _ _ _ _ _ _ _ _ Hcm).
    unfold override_cond in Hoc. split.
    + intros ->. unfold showSidebar. apply orb_true_r.
    + intros Hh. rewrite Hh, andb_true_r in Hoc.
      destruct (showSidebar (memoizedProps f) (state_showSidebarOverride f)) eqn:Es,
        (state_showSidebarOverride f) eqn:Eo; try reflexivity; try discriminate.
      unfold showSidebar in Es. now rewrite orb_true_r in Es.
Qed.

Lemma sample_override_and_sidebar :
  sidebar_shown Sample.w1 = override_of Sample.w1.
Proof.
  assert (Hi : initial Sample.w0 = true) by reflexivity.
  assert (Hrun : run Sample.events Sample.w0 = inr Sample.w1) by reflexivity.
  destruct (override_and_sidebar_between_events Sample.w0 Sample.events
              Sample.w1 Hi Hrun) as [_ Hh].
  apply Hh. reflexivity.
Defined.

(** X11: AppView listens to hashchange only: the window dispatching an
    event of any other type leaves the world as it is. *)
Theorem other_window_events_ignored w0 evs w type :
  initial w0 = true ->
  run evs w0 = inr w ->
  type <> "hashchange" ->
  dispatch type w = w.
Proof.
  intros Hi Hrun Ht.
  destruct (run_initial_stable w0 evs Hi) as (w1 & Hrun1 & Hs).
  rewrite Hrun in Hrun1. injection Hrun1 as <-.
  eapply dispatch_other_type; eassumption.
Qed.

Lemma sample_popstate_ignored :
  dispatch "popstate" Sample.w1 = Sample.w1.
Proof.
  refine (other_window_events_ignored Sample.w0 Sample.events Sample.w1
            "popstate" _ _ _); [reflexivity | reflexivity | discriminate].
Defined.


